(** * simplest-stable: the checkpoint loader ([src/loading.py])

    A shallow embedding of the loader module: the entry point
    [prepare_pipe], the loaders it dispatches to, and the checkpoint
    normalisation function
    [load_ckpt_or_safetensors_file_and_cache_as_diffusers].

    Python values are modelled by small inductive types, dictionaries by
    association lists in insertion order, exceptions by an error monad
    carrying the exception class and its first argument, and the one
    persistent side effect of the module (writing a converted pipeline
    under the cache root) by explicit state passing.  Everything the
    module imports (torch, safetensors, OmegaConf, diffusers, transformers
    and the repository's own conversion script and utilities) is gathered
    in the record [Externals]. *)

From Stdlib Require Import String Ascii List ZArith Bool.
Import ListNotations.
Open Scope string_scope.
Open Scope Z_scope.

Set Warnings "-register-all".

(** ** Exceptions *)

(** A raised Python exception: its class name and [args[0]] rendered as a
    string.  Subclasses are recorded under the builtin class they derive
    from (OmegaConf's [ConfigKeyError] is a [KeyError], its
    [ConfigAttributeError] an [AttributeError]). *)
Record exn : Type := Exn { exn_class : string; exn_arg : string }.

Inductive result (A : Type) : Type :=
| Ok (a : A)
| Raise (e : exn).

Arguments Ok {A} a.
Arguments Raise {A} e.

Definition rbind {A B : Type} (m : result A) (f : A -> result B) : result B :=
  match m with
  | Ok a => f a
  | Raise e => Raise e
  end.

Notation "x <- m ;; k" := (rbind m (fun x => k))
  (at level 61, m at next level, right associativity).
Notation "' pat <- m ;; k" := (rbind m (fun x => match x with pat => k end))
  (at level 61, pat pattern, m at next level, right associativity).

(** ** Dictionaries *)

(** A Python [dict] with string keys: an association list in insertion
    order, looked up from the front. *)
Definition dict (V : Type) : Type := list (string * V).

Fixpoint dict_get {V : Type} (k : string) (d : dict V) : option V :=
  match d with
  | [] => None
  | (k', v) :: d' => if String.eqb k' k then Some v else dict_get k d'
  end.

Definition dict_mem {V : Type} (k : string) (d : dict V) : bool :=
  match dict_get k d with Some _ => true | None => false end.

(** [d[k] = v]: replaces the value of an existing key in place, appends a
    new key at the end. *)
Fixpoint dict_set {V : Type} (k : string) (v : V) (d : dict V) : dict V :=
  match d with
  | [] => [(k, v)]
  | (k', v') :: d' =>
      if String.eqb k' k then (k', v) :: d' else (k', v') :: dict_set k v d'
  end.

(** ** Strings and paths *)

Fixpoint rfind_from (c : ascii) (s : string) (i best : Z) : Z :=
  match s with
  | EmptyString => best
  | String a s' => rfind_from c s' (i + 1) (if Ascii.eqb a c then i else best)
  end.

(** [s.rfind(c)]: the index of the last occurrence of [c], or [-1]. *)
Definition rfind (c : ascii) (s : string) : Z := rfind_from c s 0 (-1).

Fixpoint all_dots (s : string) : bool :=
  match s with
  | EmptyString => true
  | String a s' => Ascii.eqb a "." && all_dots s'
  end.

(** [os.path.splitext] on a POSIX path: the extension starts at the last
    dot of the last path component, leading dots of that component not
    counting. *)
Definition splitext (p : string) : string * string :=
  let sepIndex := rfind "/" p in
  let dotIndex := rfind "." p in
  if (sepIndex <? dotIndex)
     && negb (all_dots (substring (Z.to_nat (sepIndex + 1))
                                  (Z.to_nat (dotIndex - sepIndex - 1)) p))
  then (substring 0 (Z.to_nat dotIndex) p,
        substring (Z.to_nat dotIndex) (String.length p) p)
  else (p, "").

Definition ends_with_sep (p : string) : bool :=
  match String.length p with
  | O => false
  | S n => String.eqb (substring n 1 p) "/"
  end.

(** [os.path.join(a, b)] on a POSIX path. *)
Definition path_join (a b : string) : string :=
  if prefix "/" b then b
  else if String.eqb a "" || ends_with_sep a then a ++ b
  else a ++ "/" ++ b.

Fixpoint last_segment_from (acc s : string) : string :=
  match s with
  | EmptyString => acc
  | String a s' =>
      if Ascii.eqb a "." then last_segment_from "" s'
      else last_segment_from (acc ++ String a "") s'
  end.

(** [s.split(".")[-1]]. *)
Definition last_segment (s : string) : string := last_segment_from "" s.

(** [needle in haystack] on two strings. *)
Definition str_contains (needle haystack : string) : bool :=
  match index 0 needle haystack with Some _ => true | None => false end.

(** ** Checkpoint values *)

(** A tensor: its shape and an opaque payload (the element bit patterns in
    storage order). *)
Record tensor : Type := Tensor { shape : list Z; storage : list Z }.

(** What a loaded checkpoint file holds, as far as the loader looks:
    integers (the training metadata), tensors and nested dictionaries.
    Entries of other kinds (version strings, optimizer state lists) are
    only handed on and are left out. *)
Inductive pyval : Type :=
| PyInt (n : Z)
| PyTensor (t : tensor)
| PyDict (d : list (string * pyval)).

(** [k in v]. *)
Definition py_contains (k : string) (v : pyval) : result bool :=
  match v with
  | PyDict d => Ok (dict_mem k d)
  | PyInt _ => Raise (Exn "TypeError" "argument of type 'int' is not iterable")
  | PyTensor _ =>
      Raise (Exn "RuntimeError" "Tensor.__contains__ only supports Tensor or scalar")
  end.

(** [v[k]] with a string key. *)
Definition py_getitem (v : pyval) (k : string) : result pyval :=
  match v with
  | PyDict d =>
      match dict_get k d with
      | Some x => Ok x
      | None => Raise (Exn "KeyError" k)
      end
  | PyInt _ => Raise (Exn "TypeError" "'int' object is not subscriptable")
  | PyTensor _ => Raise (Exn "IndexError" "invalid index of type str")
  end.

(** [v.items()]. *)
Definition py_items (v : pyval) : result (list (string * pyval)) :=
  match v with
  | PyDict d => Ok d
  | _ => Raise (Exn "AttributeError" "items")
  end.

(** [v.shape]. *)
Definition py_shape (v : pyval) : result (list Z) :=
  match v with
  | PyTensor t => Ok (shape t)
  | _ => Raise (Exn "AttributeError" "shape")
  end.

(** [shape[-1]]. *)
Definition last_dim (s : list Z) : result Z :=
  match rev s with
  | d :: _ => Ok d
  | [] => Raise (Exn "IndexError" "tuple index out of range")
  end.

(** ** Structural configuration documents *)

(** A document loaded by OmegaConf.  Floating-point scalars are carried as
    their binary64 bit pattern: the loader only passes them on. *)
Inductive yaml : Type :=
| YNull
| YBool (b : bool)
| YInt (n : Z)
| YFloat (bits : Z)
| YStr (s : string)
| YList (l : list yaml)
| YMap (m : list (string * yaml)).

(** [cfg[k]]; a missing key raises, as in OmegaConf 2.1 and later. *)
Definition cfg_getitem (cfg : yaml) (k : string) : result yaml :=
  match cfg with
  | YMap m =>
      match dict_get k m with
      | Some v => Ok v
      | None => Raise (Exn "KeyError" k)
      end
  | YList _ => Raise (Exn "KeyValidationError" k)
  | _ => Raise (Exn "TypeError" "object is not subscriptable")
  end.

(** [cfg.k]. *)
Definition cfg_getattr (cfg : yaml) (k : string) : result yaml :=
  match cfg with
  | YMap m =>
      match dict_get k m with
      | Some v => Ok v
      | None => Raise (Exn "AttributeError" k)
      end
  | _ => Raise (Exn "AttributeError" k)
  end.

Definition yaml_is_str (s : string) (v : yaml) : bool :=
  match v with
  | YStr s' => String.eqb s' s
  | _ => false
  end.

(** [k in cfg]. *)
Definition cfg_contains (k : string) (cfg : yaml) : result bool :=
  match cfg with
  | YMap m => Ok (dict_mem k m)
  | YList l => Ok (existsb (yaml_is_str k) l)
  | YStr s => Ok (str_contains k s)
  | _ => Raise (Exn "TypeError" "argument is not iterable")
  end.

(** [v == s] for a string literal [s]. *)
Definition yaml_eq_str (v : yaml) (s : string) : bool := yaml_is_str s v.

(** [v.split(".")[-1]]. *)
Definition yaml_split_last (v : yaml) : result string :=
  match v with
  | YStr s => Ok (last_segment s)
  | _ => Raise (Exn "AttributeError" "split")
  end.


(** ** Pipelines *)

(** The arguments [DDIMScheduler] is constructed with. *)
Record DDIMScheduler : Type := {
  beta_end : yaml;
  beta_schedule : string;
  beta_start : yaml;
  num_train_timesteps : yaml;
  steps_offset : Z;
  clip_sample : bool;
  set_alpha_to_one : bool;
  sched_prediction_type : string
}.

(** Methods the loader invokes on a pipeline after it is built. *)
Inductive pipe_call : Type :=
| EnableXformersMemoryEfficientAttention
| EnableAttentionSlicing
| AssignPaddingMode (mode : string)
| ToDevice (device : string)
| ToDtype (dtype : string).

(** A [SimpleStableDiffusionPipeline]: the components its constructor is
    given, and the methods invoked on it since, oldest first.  [module] is
    a torch module, [component] a tokenizer or feature extractor. *)
Record pipeline (module component : Type) : Type := SimpleStableDiffusionPipeline {
  vae : module;
  text_encoder : module;
  tokenizer : component;
  unet : module;
  scheduler : DDIMScheduler;
  feature_extractor : option component;
  safety_checker : option module;
  requires_safety_checker : bool;
  applied : list pipe_call
}.

Arguments SimpleStableDiffusionPipeline {module component}.
Arguments vae {module component}.
Arguments text_encoder {module component}.
Arguments tokenizer {module component}.
Arguments unet {module component}.
Arguments scheduler {module component}.
Arguments feature_extractor {module component}.
Arguments safety_checker {module component}.
Arguments requires_safety_checker {module component}.
Arguments applied {module component}.

(** [pipe.method()]. *)
Definition invoke {module component : Type} (c : pipe_call)
    (pipe : pipeline module component) : pipeline module component :=
  SimpleStableDiffusionPipeline (vae pipe) (text_encoder pipe) (tokenizer pipe)
    (unet pipe) (scheduler pipe) (feature_extractor pipe) (safety_checker pipe)
    (requires_safety_checker pipe) (applied pipe ++ [c]).

(** ** Model tables *)

(** The entries of the model dictionaries handed to [prepare_pipe]. *)
Inductive json : Type :=
| JNull
| JBool (b : bool)
| JStr (s : string)
| JDict (d : list (string * json)).

(** [d[k]]. *)
Definition json_getitem (v : json) (k : string) : result json :=
  match v with
  | JDict d =>
      match dict_get k d with
      | Some x => Ok x
      | None => Raise (Exn "KeyError" k)
      end
  | JStr _ => Raise (Exn "TypeError" "string indices must be integers")
  | _ => Raise (Exn "TypeError" "object is not subscriptable")
  end.

(** Truth value of [v]. *)
Definition json_truthy (v : json) : bool :=
  match v with
  | JNull => false
  | JBool b => b
  | JStr s => negb (String.eqb s "")
  | JDict d => match d with [] => false | _ :: _ => true end
  end.

(** [v == s] for a string literal [s]. *)
Definition json_eq_str (v : json) (s : string) : bool :=
  match v with
  | JStr s' => String.eqb s' s
  | _ => false
  end.

(** A value passed where the callee's signature says [str]; one that
    violates the annotation is rejected at the call. *)
Definition as_str (v : json) : result string :=
  match v with
  | JStr s => Ok s
  | _ => Raise (Exn "TypeError" "expected str")
  end.

(** A value passed where the callee's signature says [Optional[str]]. *)
Definition as_optional_str (v : json) : result (option string) :=
  match v with
  | JNull => Ok None
  | JStr s => Ok (Some s)
  | _ => Raise (Exn "TypeError" "expected str or None")
  end.

(** Keyword arguments of [SimpleStableDiffusionPipeline.from_pretrained];
    every call of the module passes [safety_checker=None] and
    [requires_safety_checker=False]. *)
Record from_pretrained_args (module : Type) : Type := {
  fp_vae : option module;
  fp_local_files_only : bool;
  fp_torch_dtype : option string
}.

Arguments fp_vae {module}.
Arguments fp_local_files_only {module}.
Arguments fp_torch_dtype {module}.

(** ** The imported collaborators *)

(** Everything [loading.py] imports.  Reading functions return what they
    read or the exception they raise.  The conversion functions of
    [src/scripts/convert_from_ckpt.py] receive the checkpoint dictionary
    by reference, so each returns the dictionary as it leaves it next to
    its result. *)
Record Externals : Type := {
  module : Type;
  component : Type;
  (* torch, safetensors, OmegaConf *)
  torch_load : string -> result pyval;
  safe_open : string -> result (list (string * tensor));
  tensor_eq_scalar : tensor -> Z -> result bool;
  OmegaConf_load : string -> result yaml;
  (* src.scripts.convert_from_ckpt *)
  create_unet_diffusers_config : yaml -> Z -> result (dict yaml);
  create_vae_diffusers_config : yaml -> Z -> result (dict yaml);
  convert_ldm_unet_checkpoint :
    pyval -> dict yaml -> string -> bool -> result (dict tensor * pyval);
  convert_ldm_vae_checkpoint :
    pyval -> dict yaml -> result (dict tensor * pyval);
  convert_ldm_vae_checkpoint_from_file :
    dict pyval -> dict yaml -> result (dict tensor);
  convert_open_clip_checkpoint : pyval -> result (module * pyval);
  convert_ldm_clip_checkpoint : pyval -> result (module * pyval);
  (* diffusers, transformers *)
  UNet2DConditionModel : dict yaml -> result module;
  AutoencoderKL : dict yaml -> result module;
  load_state_dict : module -> dict tensor -> result module;
  AutoencoderKL_from_pretrained : json -> result module;
  CLIPTokenizer_from_pretrained : string -> option string -> result component;
  AutoFeatureExtractor_from_pretrained : string -> result component;
  StableDiffusionSafetyChecker_from_pretrained : string -> result module;
  pipeline_from_pretrained :
    dict (pipeline module component) -> json -> from_pretrained_args module ->
    result (pipeline module component);
  (* huggingface_hub, src.utils *)
  hf_hub_download : json -> json -> result string;
  get_huggingface_cache_path : result string;
  login_to_huggingface : result unit
}.

(** A pipeline over the modules of [E]. *)
Definition pipe_of (E : Externals) : Type := pipeline (module E) (component E).

(** The pipeline directories on persistent storage, by path. *)
Definition disk (E : Externals) : Type := dict (pipe_of E).

(** [pipe.save_pretrained(path)]. *)
Definition save_pretrained {E : Externals} (pipe : pipe_of E) (path : string)
    (d : disk E) : disk E :=
  dict_set path pipe d.

(** ** [load_ckpt_or_safetensors_file_and_cache_as_diffusers] *)

Section Loader.

Variable E : Externals.

(** Lines 175-183: the checkpoint file as a dictionary, read key by key
    from a tensor container or unpickled. *)
Definition read_checkpoint (custom_model_path : string) : result pyval :=
  let '(_, extension) := splitext custom_model_path in
  if String.eqb extension ".safetensors" then
    f <- safe_open E custom_model_path ;;
    Ok (PyDict (fold_left
                  (fun checkpoint kt => dict_set (fst kt) (PyTensor (snd kt)) checkpoint)
                  f []))
  else torch_load E custom_model_path.

(** Lines 185-186: the training metadata ([None] when there is none) and
    the tensor dictionary, unwrapped from ["state_dict"] when present. *)
Definition unwrap_checkpoint (checkpoint : pyval) : result (option pyval * pyval) :=
  has_step <- py_contains "global_step" checkpoint ;;
  global_step <- (if has_step
                  then v <- py_getitem checkpoint "global_step" ;; Ok (Some v)
                  else Ok None) ;;
  has_state <- py_contains "state_dict" checkpoint ;;
  checkpoint <- (if has_state
                 then py_getitem checkpoint "state_dict"
                 else Ok checkpoint) ;;
  Ok (global_step, checkpoint).

(** [global_step == c] taken as a truth value; comparing a tensor is
    torch's business. *)
Definition global_step_is (global_step : option pyval) (c : Z) : result bool :=
  match global_step with
  | None => Ok false
  | Some (PyInt n) => Ok (n =? c)
  | Some (PyTensor t) => tensor_eq_scalar E t c
  | Some (PyDict _) => Ok false
  end.

Definition key_name : string :=
  "model.diffusion_model.input_blocks.2.1.transformer_blocks.0.attn2.to_k.weight".

(** Lines 191-199: the config file to read and [upcast_attention]. *)
Definition detect_config_file (global_step : option pyval) (checkpoint : pyval)
    (config_file_path : option string) : result (string * bool) :=
  match config_file_path with
  | None =>
      present <- py_contains key_name checkpoint ;;
      wide <- (if present
               then t <- py_getitem checkpoint key_name ;;
                    s <- py_shape t ;;
                    d <- last_dim s ;;
                    Ok (d =? 1024)
               else Ok false) ;;
      if wide then
        v21 <- global_step_is global_step 110000 ;;
        Ok ("src/scripts/v2-inference-v.yaml", v21)
      else Ok ("src/scripts/v1-inference.yaml", false)
  | Some path => Ok (path, false)
  end.

(** Lines 202-205: whether the document declares the velocity
    parameterization. *)
Definition parameterization_is_v (original_config : yaml) : result bool :=
  model <- cfg_getitem original_config "model" ;;
  params <- cfg_getitem model "params" ;;
  declared <- cfg_contains "parameterization" params ;;
  if declared
  then p <- cfg_getitem params "parameterization" ;;
       Ok (yaml_eq_str p "v")
  else Ok false.

(** Lines 202-218: the prediction target and the image size. *)
Definition resolve_regime (original_config : yaml) (global_step : option pyval)
    (prediction_type : option string) (image_size : option Z)
    : result (string * Z) :=
  is_v <- parameterization_is_v original_config ;;
  if is_v then
    prediction_type <-
      match prediction_type with
      | None =>
          base <- global_step_is global_step 875000 ;;
          Ok (if base then "epsilon" else "v_prediction")
      | Some t => Ok t
      end ;;
    image_size <-
      match image_size with
      | None =>
          base <- global_step_is global_step 875000 ;;
          Ok (if base then 512 else 768)
      | Some n => Ok n
      end ;;
    Ok (prediction_type, image_size)
  else
    let prediction_type :=
      match prediction_type with None => "epsilon" | Some t => t end in
    let image_size :=
      match image_size with None => 512 | Some n => n end in
    Ok (prediction_type, image_size).

(** What lines 191-218 settle. *)
Record schema : Type := {
  sch_config_file : string;
  sch_config : yaml;
  sch_upcast_attention : bool;
  sch_prediction_type : string;
  sch_image_size : Z
}.

(** Lines 191-218 in order: detection, the document, the regime. *)
Definition resolve_schema (global_step : option pyval) (checkpoint : pyval)
    (config_file_path : option string) (prediction_type : option string)
    (image_size : option Z) : result schema :=
  '(config_file_path, upcast_attention) <-
    detect_config_file global_step checkpoint config_file_path ;;
  original_config <- OmegaConf_load E config_file_path ;;
  '(prediction_type, image_size) <-
    resolve_regime original_config global_step prediction_type image_size ;;
  Ok {| sch_config_file := config_file_path;
        sch_config := original_config;
        sch_upcast_attention := upcast_attention;
        sch_prediction_type := prediction_type;
        sch_image_size := image_size |}.

(** Lines 220-233. *)
Definition build_scheduler (original_config : yaml) (prediction_type : string)
    : result DDIMScheduler :=
  model <- cfg_getattr original_config "model" ;;
  params <- cfg_getattr model "params" ;;
  num_train_timesteps <- cfg_getattr params "timesteps" ;;
  beta_start <- cfg_getattr params "linear_start" ;;
  beta_end <- cfg_getattr params "linear_end" ;;
  Ok {| beta_end := beta_end;
        beta_schedule := "scaled_linear";
        beta_start := beta_start;
        num_train_timesteps := num_train_timesteps;
        steps_offset := 1;
        clip_sample := false;
        set_alpha_to_one := false;
        sched_prediction_type := prediction_type |}.

(** Lines 235-243: the denoiser and the checkpoint as the conversion
    leaves it. *)
Definition build_unet (original_config : yaml) (image_size : Z)
    (upcast_attention : bool) (checkpoint : pyval) (custom_model_path : string)
    : result (module E * pyval) :=
  unet_config <- create_unet_diffusers_config E original_config image_size ;;
  let unet_config := dict_set "upcast_attention" (YBool upcast_attention) unet_config in
  unet <- UNet2DConditionModel E unet_config ;;
  '(converted_unet_checkpoint, checkpoint) <-
    convert_ldm_unet_checkpoint E checkpoint unet_config custom_model_path false ;;
  unet <- load_state_dict E unet converted_unet_checkpoint ;;
  Ok (unet, checkpoint).

(** Truth value of an [Optional[str]]. *)
Definition str_truthy (s : option string) : option string :=
  match s with
  | Some p => if String.eqb p "" then None else Some p
  | None => None
  end.

(** The dictionary comprehension of lines 250-251 (and 151-152). *)
Definition drop_loss_and_ema (items : dict pyval) : dict pyval :=
  filter (fun kv =>
            negb (String.eqb (substring 0 4 (fst kv)) "loss")
            && negb (String.eqb (fst kv) "model_ema.decay"
                     || String.eqb (fst kv) "model_ema.num_updates"))
         items.

(** Lines 248-256: the converted image-codec state. *)
Definition convert_vae (vae_file_path : option string) (vae_config : dict yaml)
    (checkpoint : pyval) : result (dict tensor * pyval) :=
  match str_truthy vae_file_path with
  | Some path =>
      vae_ckpt <- torch_load E path ;;
      state <- py_getitem vae_ckpt "state_dict" ;;
      items <- py_items state ;;
      let vae_dict_1 := drop_loss_and_ema items in
      converted_vae_checkpoint <-
        convert_ldm_vae_checkpoint_from_file E vae_dict_1 vae_config ;;
      Ok (converted_vae_checkpoint, checkpoint)
  | None => convert_ldm_vae_checkpoint E checkpoint vae_config
  end.

(** Lines 245-259. *)
Definition build_vae (original_config : yaml) (image_size : Z)
    (vae_file_path : option string) (checkpoint : pyval)
    : result (module E * pyval) :=
  vae_config <- create_vae_diffusers_config E original_config image_size ;;
  '(converted_vae_checkpoint, checkpoint) <-
    convert_vae vae_file_path vae_config checkpoint ;;
  vae <- AutoencoderKL E vae_config ;;
  vae <- load_state_dict E vae converted_vae_checkpoint ;;
  Ok (vae, checkpoint).

(** Lines 261-262. *)
Definition text_encoder_class (original_config : yaml) : result string :=
  model <- cfg_getattr original_config "model" ;;
  params <- cfg_getattr model "params" ;;
  cond_stage_config <- cfg_getattr params "cond_stage_config" ;;
  target <- cfg_getattr cond_stage_config "target" ;;
  yaml_split_last target.

(** Lines 264-297: the pipeline, or [None] when neither branch binds
    [pipe]. *)
Definition build_pipe (model_type : string) (checkpoint : pyval)
    (vae unet : module E) (scheduler : DDIMScheduler)
    : result (option (pipe_of E)) :=
  if String.eqb model_type "FrozenOpenCLIPEmbedder" then
    '(text_model, _) <- convert_open_clip_checkpoint E checkpoint ;;
    tokenizer <- CLIPTokenizer_from_pretrained E
                   "stabilityai/stable-diffusion-2" (Some "tokenizer") ;;
    safety_checker <- StableDiffusionSafetyChecker_from_pretrained E
                        "CompVis/stable-diffusion-safety-checker" ;;
    Ok (Some (SimpleStableDiffusionPipeline vae text_model tokenizer unet
                scheduler None (Some safety_checker) false []))
  else if String.eqb model_type "FrozenCLIPEmbedder" then
    '(text_model, _) <- convert_ldm_clip_checkpoint E checkpoint ;;
    tokenizer <- CLIPTokenizer_from_pretrained E
                   "openai/clip-vit-large-patch14" None ;;
    feature_extractor <- AutoFeatureExtractor_from_pretrained E
                           "CompVis/stable-diffusion-safety-checker" ;;
    safety_checker <- StableDiffusionSafetyChecker_from_pretrained E
                        "CompVis/stable-diffusion-safety-checker" ;;
    Ok (Some (SimpleStableDiffusionPipeline vae text_model tokenizer unet
                scheduler (Some feature_extractor) (Some safety_checker) false []))
  else Ok None.

(** What lines 175-297 leave in the local variables the rest of the
    function reads. *)
Record assembly : Type := {
  asm_schema : schema;
  asm_global_step : option pyval;
  asm_model_type : string;
  asm_pipe : option (pipe_of E)
}.

(** Lines 175-297 in order. *)
Definition assemble (custom_model_path : string)
    (config_file_path : option string) (image_size : option Z)
    (prediction_type : option string) (vae_file_path : option string)
    : result assembly :=
  checkpoint <- read_checkpoint custom_model_path ;;
  '(global_step, checkpoint) <- unwrap_checkpoint checkpoint ;;
  sch <- resolve_schema global_step checkpoint config_file_path
           prediction_type image_size ;;
  let original_config := sch_config sch in
  scheduler <- build_scheduler original_config (sch_prediction_type sch) ;;
  '(unet, checkpoint) <-
    build_unet original_config (sch_image_size sch) (sch_upcast_attention sch)
      checkpoint custom_model_path ;;
  '(vae, checkpoint) <-
    build_vae original_config (sch_image_size sch) vae_file_path checkpoint ;;
  model_type <- text_encoder_class original_config ;;
  pipe <- build_pipe model_type checkpoint vae unet scheduler ;;
  Ok {| asm_schema := sch;
        asm_global_step := global_step;
        asm_model_type := model_type;
        asm_pipe := pipe |}.

(** Reading the local [pipe] when no branch assigned it. *)
Definition unbound_pipe : exn :=
  Exn "UnboundLocalError" "local variable 'pipe' referenced before assignment".

(** The whole function.  The arguments [image_size] and [prediction_type]
    are overwritten with [None] on lines 188-189, before anything reads
    them; lines 299-303 write the pipeline under the cache root and
    return it with the prediction target. *)
Definition load_ckpt_or_safetensors_file_and_cache_as_diffusers
    (custom_model_path model_name folder_path : string)
    (config_file_path : option string) (image_size : Z)
    (prediction_type : option string) (vae_file_path : option string)
    (should_cache : bool) (d : disk E)
    : disk E * result (pipe_of E * string) :=
  let prediction_type : option string := None in
  let image_size : option Z := None in
  match assemble custom_model_path config_file_path image_size
                 prediction_type vae_file_path with
  | Raise e => (d, Raise e)
  | Ok a =>
      match asm_pipe a with
      | None => (d, Raise unbound_pipe)
      | Some pipe =>
          ((if should_cache
            then save_pretrained pipe (path_join folder_path model_name) d
            else d),
           Ok (pipe, sch_prediction_type (asm_schema a)))
      end
  end.

(** ** The source-specific loaders and the entry point *)

(** A computation that may write pipeline directories and may raise; what
    was written before an exception stays written. *)
Definition M (A : Type) : Type := disk E -> disk E * result A.

Definition mbind {A B : Type} (m : M A) (f : A -> M B) : M B :=
  fun d =>
    match m d with
    | (d', Ok a) => f a d'
    | (d', Raise e) => (d', Raise e)
    end.

Definition lift {A : Type} (r : result A) : M A := fun d => (d, r).

Notation "x <~ m ;; k" := (mbind m (fun x => k))
  (at level 61, m at next level, right associativity).

(** Lines 73-83. *)
Definition load_custom_model_from_local_file (model_path model_name : string)
    (model_config vae_file : option string) : M (pipe_of E * string) :=
  hf_cache_folder <~ lift (get_huggingface_cache_path E) ;;
  load_ckpt_or_safetensors_file_and_cache_as_diffusers
    model_path model_name hf_cache_folder model_config 512 None vae_file true.

(** Lines 86-88. *)
Definition load_installed_model_from_hf_cache (model_path : json) : M (pipe_of E) :=
  fun d =>
    (d, pipeline_from_pretrained E d model_path
          {| fp_vae := None;
             fp_local_files_only := true;
             fp_torch_dtype := Some "float16" |}).

(** Lines 91-110. *)
Definition download_and_load_non_diffusers_model (repo_id : json)
    (model_name : string) (filename config_file vae_file : json) : M (pipe_of E) :=
  hf_cache_folder <~ lift (get_huggingface_cache_path E) ;;
  checkpoint_path <~ lift (hf_hub_download E repo_id filename) ;;
  config <~ lift (if json_truthy config_file
                  then p <- hf_hub_download E repo_id config_file ;; Ok (Some p)
                  else Ok None) ;;
  vae <~ lift (if json_truthy vae_file
               then p <- hf_hub_download E repo_id vae_file ;; Ok (Some p)
               else Ok None) ;;
  r <~ load_ckpt_or_safetensors_file_and_cache_as_diffusers
         checkpoint_path model_name hf_cache_folder config 512 None vae true ;;
  lift (Ok (fst r)).

(** Lines 113-125. *)
Definition load_diffusers_model (model_choice : json) : M (pipe_of E) :=
  vae_entry <~ lift (json_getitem model_choice "vae") ;;
  if negb (json_eq_str vae_entry "") then
    login <~ lift (a <- json_getitem model_choice "requires_hf_login" ;;
                   if json_truthy a then Ok true
                   else v <- json_getitem model_choice "vae" ;;
                        b <- json_getitem v "requires_hf_login" ;;
                        Ok (json_truthy b)) ;;
    _ <~ lift (if login then login_to_huggingface E else Ok tt) ;;
    vae <~ lift (v <- json_getitem model_choice "vae" ;;
                 repo <- json_getitem v "repo_id" ;;
                 AutoencoderKL_from_pretrained E repo) ;;
    repo_id <~ lift (json_getitem model_choice "repo_id") ;;
    fun d =>
      (d, pipeline_from_pretrained E d repo_id
            {| fp_vae := Some vae;
               fp_local_files_only := false;
               fp_torch_dtype := Some "float16" |})
  else
    login <~ lift (a <- json_getitem model_choice "requires_hf_login" ;;
                   Ok (json_truthy a)) ;;
    _ <~ lift (if login then login_to_huggingface E else Ok tt) ;;
    repo_id <~ lift (json_getitem model_choice "repo_id") ;;
    fun d =>
      (d, pipeline_from_pretrained E d repo_id
            {| fp_vae := None;
               fp_local_files_only := false;
               fp_torch_dtype := None |}).

(** Truth value of an [Optional[dict]]. *)
Definition dict_truthy {V : Type} (d : option (dict V)) : bool :=
  match d with
  | Some (_ :: _) => true
  | _ => false
  end.

(** [d[k]] on a dictionary known to be truthy. *)
Definition table_getitem (d : option (dict json)) (k : string) : result json :=
  match d with
  | Some t =>
      match dict_get k t with
      | Some v => Ok v
      | None => Raise (Exn "KeyError" k)
      end
  | None => Raise (Exn "TypeError" "'NoneType' object is not subscriptable")
  end.

(** [k in d] where [d] is known to be truthy. *)
Definition table_mem (k : string) (d : option (dict json)) : bool :=
  match d with
  | Some t => dict_mem k t
  | None => false
  end.

(** Line 60. *)
Definition load_failed (model_name : string) : exn :=
  Exn "ValueError" ("Tried to load " ++ model_name ++ " and failed.").

(** Lines 34-60: the pipeline ([None] while the local [pipe] is unbound)
    and [pipe_info]. *)
Definition select_source (model_name model_type : string)
    (downloadable_model_dict : dict json)
    (custom_model_dict cached_model_dict : option (dict json))
    : M (option (pipe_of E) * json) :=
  if dict_truthy cached_model_dict
     && (table_mem model_name cached_model_dict
         || String.eqb model_type "Installed Models")
  then
    pipe_info <~ lift (table_getitem cached_model_dict model_name) ;;
    path <~ lift (json_getitem pipe_info "path") ;;
    pipe <~ load_installed_model_from_hf_cache path ;;
    lift (Ok (Some pipe, pipe_info))
  else if String.eqb model_type "Downloadable Models" then
    model_choice <~ lift (table_getitem (Some downloadable_model_dict) model_name) ;;
    type <~ lift (json_getitem model_choice "type") ;;
    pipe <~ (if json_eq_str type "diffusers" then
               pipe <~ load_diffusers_model model_choice ;;
               lift (Ok (Some pipe))
             else if json_eq_str type "hf-file" then
               repo_id <~ lift (json_getitem model_choice "repo_id") ;;
               filename <~ lift (json_getitem model_choice "filename") ;;
               config_file <~ lift (json_getitem model_choice "config_file") ;;
               vae <~ lift (json_getitem model_choice "vae") ;;
               pipe <~ download_and_load_non_diffusers_model
                         repo_id model_name filename config_file vae ;;
               lift (Ok (Some pipe))
             else lift (Ok None)) ;;
    keyword <~ lift (json_getitem model_choice "keyword") ;;
    prediction <~ lift (json_getitem model_choice "prediction") ;;
    lift (Ok (pipe, JDict [("keyword", keyword); ("prediction_type", prediction)]))
  else if dict_truthy custom_model_dict && String.eqb model_type "Custom Models" then
    custom_model <~ lift (table_getitem custom_model_dict model_name) ;;
    path <~ lift (json_getitem custom_model "path") ;;
    config <~ lift (json_getitem custom_model "config") ;;
    vae <~ lift (json_getitem custom_model "vae") ;;
    path <~ lift (as_str path) ;;
    config <~ lift (as_optional_str config) ;;
    vae <~ lift (as_optional_str vae) ;;
    r <~ load_custom_model_from_local_file path model_name config vae ;;
    keywords <~ lift (json_getitem custom_model "keywords") ;;
    lift (Ok (Some (fst r),
              JDict [("keyword", keywords); ("prediction_type", JStr (snd r))]))
  else lift (Raise (load_failed model_name)).

(** Lines 62-70 on a bound [pipe]. *)
Definition post_load (enable_attention_slicing enable_xformers : bool)
    (pipe : pipe_of E) : pipe_of E :=
  let pipe :=
    if enable_xformers then invoke EnableXformersMemoryEfficientAttention pipe
    else if enable_attention_slicing then invoke EnableAttentionSlicing pipe
    else pipe in
  let pipe := invoke (AssignPaddingMode "setup") pipe in
  let pipe := invoke (ToDevice "cuda") pipe in
  invoke (ToDtype "float16") pipe.

(** Lines 33-70. *)
Definition prepare_pipe (model_name model_type : string)
    (downloadable_model_dict : dict json)
    (custom_model_dict cached_model_dict : option (dict json))
    (enable_attention_slicing enable_xformers : bool)
    : M (pipe_of E * json) :=
  r <~ select_source model_name model_type downloadable_model_dict
         custom_model_dict cached_model_dict ;;
  match fst r with
  | None => lift (Raise unbound_pipe)
  | Some pipe =>
      lift (Ok (post_load enable_attention_slicing enable_xformers pipe, snd r))
  end.

End Loader.

Arguments asm_schema {E}.
Arguments asm_global_step {E}.
Arguments asm_model_type {E}.
Arguments asm_pipe {E}.

(** ** An in-memory instance of the collaborators *)

(** A torch module as its class, constructor arguments and loaded state. *)
Record sym_module : Type := SymModule {
  mod_class : string;
  mod_config : dict yaml;
  mod_state : dict tensor
}.

Definition read_file {V : Type} (files : dict V) (path : string) : result V :=
  match dict_get path files with
  | Some v => Ok v
  | None => Raise (Exn "FileNotFoundError" path)
  end.

(** The tensors of a dictionary whose key starts with [pre], the prefix
    removed. *)
Fixpoint tensors_under (pre : string) (items : dict pyval) : dict tensor :=
  match items with
  | [] => []
  | (k, PyTensor t) :: rest =>
      if prefix pre k
      then (substring (String.length pre) (String.length k) k, t)
             :: tensors_under pre rest
      else tensors_under pre rest
  | _ :: rest => tensors_under pre rest
  end.

Definition tensors_of (pre : string) (checkpoint : pyval) : dict tensor :=
  match checkpoint with
  | PyDict d => tensors_under pre d
  | _ => []
  end.

(** The collaborators over three file tables: pickled checkpoints, tensor
    containers and configuration documents.  Conversion keeps the tensors
    under the sub-model's prefix; modules take any state. *)
Definition mem_externals (pickles : dict pyval)
    (containers : dict (list (string * tensor))) (documents : dict yaml)
    : Externals :=
  {| module := sym_module;
     component := string;
     torch_load := read_file pickles;
     safe_open := read_file containers;
     tensor_eq_scalar := fun t c =>
       match storage t with
       | [x] => Ok (x =? c)
       | _ => Raise (Exn "RuntimeError" "Boolean value of Tensor is ambiguous")
       end;
     OmegaConf_load := read_file documents;
     create_unet_diffusers_config := fun _ image_size =>
       Ok [("sample_size", YInt (image_size / 8))];
     create_vae_diffusers_config := fun _ image_size =>
       Ok [("sample_size", YInt image_size)];
     convert_ldm_unet_checkpoint := fun checkpoint _ _ _ =>
       Ok (tensors_of "model.diffusion_model." checkpoint, checkpoint);
     convert_ldm_vae_checkpoint := fun checkpoint _ =>
       Ok (tensors_of "first_stage_model." checkpoint, checkpoint);
     convert_ldm_vae_checkpoint_from_file := fun items _ =>
       Ok (tensors_under "" items);
     convert_open_clip_checkpoint := fun checkpoint =>
       Ok (SymModule "CLIPTextModel" []
             (tensors_of "cond_stage_model.model." checkpoint), checkpoint);
     convert_ldm_clip_checkpoint := fun checkpoint =>
       Ok (SymModule "CLIPTextModel" []
             (tensors_of "cond_stage_model.transformer." checkpoint), checkpoint);
     UNet2DConditionModel := fun config =>
       Ok (SymModule "UNet2DConditionModel" config []);
     AutoencoderKL := fun config => Ok (SymModule "AutoencoderKL" config []);
     load_state_dict := fun m state =>
       Ok (SymModule (mod_class m) (mod_config m) state);
     AutoencoderKL_from_pretrained := fun _ =>
       Ok (SymModule "AutoencoderKL" [] []);
     CLIPTokenizer_from_pretrained := fun repo _ => Ok repo;
     AutoFeatureExtractor_from_pretrained := fun repo => Ok repo;
     StableDiffusionSafetyChecker_from_pretrained := fun _ =>
       Ok (SymModule "StableDiffusionSafetyChecker" [] []);
     pipeline_from_pretrained := fun d path _ =>
       match path with
       | JStr p => read_file d p
       | _ => Raise (Exn "TypeError" "expected str")
       end;
     hf_hub_download := fun repo_id filename =>
       match repo_id, filename with
       | JStr r, JStr f => Ok (r ++ "/" ++ f)
       | _, _ => Raise (Exn "TypeError" "expected str")
       end;
     get_huggingface_cache_path := Ok "/cache";
     login_to_huggingface := Ok tt |}.

(** A narrow-family and a wide-family document, reduced to the fields the
    loader reads. *)
Definition narrow_document : yaml :=
  YMap [("model", YMap [("params", YMap
    [("linear_start", YFloat 4560979089502898015);
     ("linear_end", YFloat 4578071150808694522);
     ("timesteps", YInt 1000);
     ("cond_stage_config", YMap
        [("target", YStr "ldm.modules.encoders.modules.FrozenCLIPEmbedder")])])])].

Definition wide_document : yaml :=
  YMap [("model", YMap [("params", YMap
    [("parameterization", YStr "v");
     ("linear_start", YFloat 4560979089502898015);
     ("linear_end", YFloat 4578071150808694522);
     ("timesteps", YInt 1000);
     ("cond_stage_config", YMap
        [("target", YStr "ldm.modules.encoders.modules.FrozenOpenCLIPEmbedder")])])])].

(** A document naming a text encoder the loader has no branch for. *)
Definition other_document : yaml :=
  YMap [("model", YMap [("params", YMap
    [("linear_start", YFloat 4560979089502898015);
     ("linear_end", YFloat 4578071150808694522);
     ("timesteps", YInt 1000);
     ("cond_stage_config", YMap
        [("target", YStr "ldm.modules.encoders.modules.FrozenT5Embedder")])])])].

Definition shipped_documents : dict yaml :=
  [("src/scripts/v1-inference.yaml", narrow_document);
   ("src/scripts/v2-inference-v.yaml", wide_document);
   ("/models/t5.yaml", other_document)].

Definition wide_tensor : tensor := Tensor [320; 1024] [].
Definition narrow_tensor : tensor := Tensor [320; 768] [].

(** Three pickled checkpoints and a separate image-codec file. *)
Definition demo_pickles : dict pyval :=
  [("/models/narrow.ckpt",
    PyDict [("state_dict", PyDict
      [(key_name, PyTensor narrow_tensor);
       ("first_stage_model.decoder.conv_in.weight", PyTensor (Tensor [4] [1]))])]);
   ("/models/wide.ckpt",
    PyDict [("global_step", PyInt 140000);
            ("state_dict", PyDict [(key_name, PyTensor wide_tensor)])]);
   ("/models/base.ckpt",
    PyDict [("global_step", PyInt 875000);
            ("state_dict", PyDict [(key_name, PyTensor wide_tensor)])]);
   ("/models/vae.pt",
    PyDict [("state_dict", PyDict
      [("loss.logvar", PyTensor (Tensor [] [0]));
       ("decoder.conv_in.weight", PyTensor (Tensor [4] [2]));
       ("model_ema.decay", PyTensor (Tensor [] [3]))])])].

Definition demo : Externals := mem_externals demo_pickles [] shipped_documents.

(** ** Statements about detection *)

Definition wide_config_file : string := "src/scripts/v2-inference-v.yaml".
Definition narrow_config_file : string := "src/scripts/v1-inference.yaml".

(** Modelled from the spec: the two configuration documents the loader
    falls back on, [src/scripts/v2-inference-v.yaml] and
    [src/scripts/v1-inference.yaml], are not among the sources.  By
    sections 4.1 and 8 of the specification the wide family's document
    declares the velocity parameterization and the narrow family's does
    not. *)
Definition shipped_configs (E : Externals) : Prop :=
  (exists c, OmegaConf_load E wide_config_file = Ok c
             /\ parameterization_is_v c = Ok true)
  /\ (exists c, OmegaConf_load E narrow_config_file = Ok c
                /\ parameterization_is_v c = Ok false).


(** The distinguishing tensor is present with this trailing dimension. *)
Definition trailing_dim (d : dict pyval) (n : Z) : Prop :=
  exists t, dict_get key_name d = Some (PyTensor t) /\ last_dim (shape t) = Ok n.

(** ** Statements about the entry point *)



(** The calls [prepare_pipe] makes on a loaded pipeline when the fused
    kernel is requested. *)
Definition xformers_calls : list pipe_call :=
  [EnableXformersMemoryEfficientAttention; AssignPaddingMode "setup";
   ToDevice "cuda"; ToDtype "float16"].

(** ** [load_vae_file_to_current_pipe] *)

(** [pipe.vae = vae]. *)
Definition set_vae {module component : Type} (v : module)
    (pipe : pipeline module component) : pipeline module component :=
  SimpleStableDiffusionPipeline v (text_encoder pipe) (tokenizer pipe)
    (unet pipe) (scheduler pipe) (feature_extractor pipe) (safety_checker pipe)
    (requires_safety_checker pipe) (applied pipe).

(** The attributes of the current codec that lines 139-148 copy, in the
    order they are read. *)
Definition vae_config_keys : list string :=
  ["sample_size"; "in_channels"; "out_channels"; "down_block_types";
   "up_block_types"; "block_out_channels"; "latent_channels";
   "layers_per_block"].

Section SwapVae.

Variable E : Externals.

(** [module.name]: a constructor argument read back from a module, or the
    exception the access raises. *)
Variable module_attr : module E -> string -> result yaml.

Fixpoint read_attrs (m : module E) (keys : list string) : result (dict yaml) :=
  match keys with
  | [] => Ok []
  | k :: rest =>
      v <- module_attr m k ;;
      others <- read_attrs m rest ;;
      Ok ((k, v) :: others)
  end.

(** Lines 139-148. *)
Definition current_vae_config (pipe : pipe_of E) : result (dict yaml) :=
  read_attrs (vae pipe) vae_config_keys.

(** Lines 138-162. *)
Definition load_vae_file_to_current_pipe (pipe : pipe_of E)
    (vae_file_path : string) : result (pipe_of E) :=
  vae_config <- current_vae_config pipe ;;
  vae_ckpt <- torch_load E vae_file_path ;;
  state <- py_getitem vae_ckpt "state_dict" ;;
  items <- py_items state ;;
  let vae_dict_1 := drop_loss_and_ema items in
  converted_vae_checkpoint <-
    convert_ldm_vae_checkpoint_from_file E vae_dict_1 vae_config ;;
  vae <- AutoencoderKL E vae_config ;;
  vae <- load_state_dict E vae converted_vae_checkpoint ;;
  let pipe := set_vae vae pipe in
  let pipe := invoke (AssignPaddingMode "setup") pipe in
  let pipe := invoke (ToDevice "cuda") pipe in
  let pipe := invoke (ToDtype "float16") pipe in
  Ok pipe.

End SwapVae.

(** ** Statements about the remaining code *)

(** The attention call lines 62-65 make for these two flags. *)
Definition attention_calls (enable_attention_slicing enable_xformers : bool)
    : list pipe_call :=
  if enable_xformers then [EnableXformersMemoryEfficientAttention]
  else if enable_attention_slicing then [EnableAttentionSlicing]
  else [].

(** The calls lines 67-69 (and 159-161) always make. *)
Definition placement_calls : list pipe_call :=
  [AssignPaddingMode "setup"; ToDevice "cuda"; ToDtype "float16"].

(** No dot in [s]. *)
Fixpoint dotless (s : string) : bool :=
  match s with
  | EmptyString => true
  | String a s' => negb (Ascii.eqb a ".") && dotless s'
  end.

(** The keys the comprehension of lines 250-251 keeps. *)
Definition kept_key (k : string) : Prop :=
  substring 0 4 k <> "loss"
  /\ k <> "model_ema.decay"
  /\ k <> "model_ema.num_updates".

(** The in-memory collaborators with a codec config of the eight
    arguments [load_vae_file_to_current_pipe] reads back. *)
Definition codec_config (image_size : Z) : dict yaml :=
  [("sample_size", YInt image_size); ("in_channels", YInt 3);
   ("out_channels", YInt 3);
   ("down_block_types", YList [YStr "DownEncoderBlock2D"]);
   ("up_block_types", YList [YStr "UpDecoderBlock2D"]);
   ("block_out_channels", YList [YInt 128]); ("latent_channels", YInt 4);
   ("layers_per_block", YInt 2)].

Definition demo_codec : Externals :=
  {| module := sym_module;
     component := string;
     torch_load := torch_load demo;
     safe_open := safe_open demo;
     tensor_eq_scalar := tensor_eq_scalar demo;
     OmegaConf_load := OmegaConf_load demo;
     create_unet_diffusers_config := create_unet_diffusers_config demo;
     create_vae_diffusers_config := fun _ image_size => Ok (codec_config image_size);
     convert_ldm_unet_checkpoint := convert_ldm_unet_checkpoint demo;
     convert_ldm_vae_checkpoint := convert_ldm_vae_checkpoint demo;
     convert_ldm_vae_checkpoint_from_file := convert_ldm_vae_checkpoint_from_file demo;
     convert_open_clip_checkpoint := convert_open_clip_checkpoint demo;
     convert_ldm_clip_checkpoint := convert_ldm_clip_checkpoint demo;
     UNet2DConditionModel := UNet2DConditionModel demo;
     AutoencoderKL := AutoencoderKL demo;
     load_state_dict := load_state_dict demo;
     AutoencoderKL_from_pretrained := AutoencoderKL_from_pretrained demo;
     CLIPTokenizer_from_pretrained := CLIPTokenizer_from_pretrained demo;
     AutoFeatureExtractor_from_pretrained := AutoFeatureExtractor_from_pretrained demo;
     StableDiffusionSafetyChecker_from_pretrained :=
       StableDiffusionSafetyChecker_from_pretrained demo;
     pipeline_from_pretrained := pipeline_from_pretrained demo;
     hf_hub_download := hf_hub_download demo;
     get_huggingface_cache_path := get_huggingface_cache_path demo;
     login_to_huggingface := login_to_huggingface demo |}.

(** Reading a constructor argument back from an in-memory module. *)
Definition sym_attr (m : sym_module) (k : string) : result yaml :=
  match dict_get k (mod_config m) with
  | Some v => Ok v
  | None => Raise (Exn "AttributeError" k)
  end.

(** A safetensors container with the distinguishing tensor. *)
Definition demo_container : list (string * tensor) :=
  [(key_name, wide_tensor);
   ("first_stage_model.decoder.conv_in.weight", Tensor [4] [5])].

(** A custom-model table with one complete entry and one without
    keywords, and a downloadable table with an entry of unknown type. *)
Definition demo_custom_models : dict json :=
  [("narrow",
    JDict [("path", JStr "/models/narrow.ckpt"); ("config", JNull);
           ("vae", JStr ""); ("keywords", JStr "kw")]);
   ("bare",
    JDict [("path", JStr "/models/narrow.ckpt"); ("config", JNull);
           ("vae", JNull)])].

Definition demo_downloadable_models : dict json :=
  [("odd",
    JDict [("type", JStr "onnx"); ("keyword", JStr "kw");
           ("prediction", JStr "epsilon")])].

(** Line 180, one key of the container. *)
Definition store_tensor (checkpoint : dict pyval) (kt : string * tensor)
    : dict pyval :=
  dict_set (fst kt) (PyTensor (snd kt)) checkpoint.

(** The text encoder, tokenizer and feature extractor lines 264-297 give
    a pipeline of this family. *)
Definition family_parts (E : Externals) (model_type : string)
    (checkpoint : pyval) (pipe : pipe_of E) : Prop :=
  (model_type = "FrozenOpenCLIPEmbedder"
   /\ feature_extractor pipe = None
   /\ CLIPTokenizer_from_pretrained E "stabilityai/stable-diffusion-2"
        (Some "tokenizer") = Ok (tokenizer pipe)
   /\ exists c, convert_open_clip_checkpoint E checkpoint
                = Ok (text_encoder pipe, c))
  \/ (model_type = "FrozenCLIPEmbedder"
      /\ (exists extractor,
            feature_extractor pipe = Some extractor
            /\ AutoFeatureExtractor_from_pretrained E
                 "CompVis/stable-diffusion-safety-checker" = Ok extractor)
      /\ CLIPTokenizer_from_pretrained E "openai/clip-vit-large-patch14" None
         = Ok (tokenizer pipe)
      /\ exists c, convert_ldm_clip_checkpoint E checkpoint
                   = Ok (text_encoder pipe, c)).

(** * Properties *)

Lemma rbind_ok {A B : Type} (m : result A) (f : A -> result B) (b : B) :
  rbind m f = Ok b -> exists a, m = Ok a /\ f a = Ok b.
Proof.
  destruct m as [a | e]; simpl; intros H.
  - exists a. split; [reflexivity | exact H].
  - discriminate H.
Qed.

(** Splits a successful sequence of binds into its steps. *)
Tactic Notation "bind_inv" hyp(H) "as" simple_intropattern(a) ident(Ha) :=
  apply rbind_ok in H; destruct H as [a [Ha H]].

Section Detection.

Variable E : Externals.

Lemma global_step_is_int (step : option Z) (c : Z) :
  global_step_is E (option_map PyInt step) c
  = Ok (match step with Some n => n =? c | None => false end).
Proof. destruct step; reflexivity. Qed.

Lemma detect_wide (global_step : option pyval) (d : dict pyval) :
  trailing_dim d 1024 ->
  detect_config_file E global_step (PyDict d) None
  = (v21 <- global_step_is E global_step 110000 ;; Ok (wide_config_file, v21)).
Proof.
  intros [t [Hk Hd]].
  unfold detect_config_file, py_contains, dict_mem, py_getitem.
  rewrite Hk. simpl. rewrite Hd. reflexivity.
Qed.

Lemma detect_narrow_other_dim (global_step : option pyval) (d : dict pyval) (n : Z) :
  trailing_dim d n -> n <> 1024 ->
  detect_config_file E global_step (PyDict d) None = Ok (narrow_config_file, false).
Proof.
  intros [t [Hk Hd]] Hn.
  unfold detect_config_file, py_contains, dict_mem, py_getitem.
  rewrite Hk. simpl. rewrite Hd. simpl.
  destruct (Z.eqb_spec n 1024) as [Heq | _]; [contradiction | reflexivity].
Qed.

Lemma detect_narrow_absent (global_step : option pyval) (d : dict pyval) :
  dict_get key_name d = None ->
  detect_config_file E global_step (PyDict d) None = Ok (narrow_config_file, false).
Proof.
  intros Hk.
  unfold detect_config_file, py_contains, dict_mem.
  rewrite Hk. reflexivity.
Qed.

Lemma regime_of_v (c : yaml) (step : option Z) :
  parameterization_is_v c = Ok true ->
  resolve_regime E c (option_map PyInt step) None None
  = Ok (if match step with Some n => n =? 875000 | None => false end
        then ("epsilon", 512)
        else ("v_prediction", 768)).
Proof.
  intros Hv. unfold resolve_regime. rewrite Hv. simpl.
  rewrite global_step_is_int. simpl.
  destruct (match step with Some n => n =? 875000 | None => false end);
    reflexivity.
Qed.



End Detection.


(** C2 as stated fails: on a checkpoint without the distinguishing key
    and with no explicit config, detection raises nothing and settles on
    the narrow family's document. *)
Lemma detection_defaults_counterexample :
  dict_get key_name (@nil (string * pyval)) = None
  /\ detect_config_file demo None (PyDict []) None = Ok (narrow_config_file, false)
  /\ ~ (exists msg,
          detect_config_file demo None (PyDict []) None
          = Raise (Exn "ConfigResolutionError" msg)).
Proof.
  split; [reflexivity |]. split; [reflexivity |].
  intros [msg H]. discriminate H.
Qed.

(** C2, amended.  When the distinguishing key is absent, or present with
    a trailing dimension other than 1024, and no explicit config is
    given, detection does not fail: it selects the narrow family's
    document. *)
Theorem detection_defaults_to_narrow (E : Externals)
    (global_step : option pyval) (d : dict pyval) :
  dict_get key_name d = None \/ (exists n, trailing_dim d n /\ n <> 1024) ->
  detect_config_file E global_step (PyDict d) None = Ok (narrow_config_file, false).
Proof.
  intros [Hk | [n [Hn Hne]]].
  - apply detect_narrow_absent. exact Hk.
  - apply (detect_narrow_other_dim E global_step d n Hn Hne).
Qed.

Lemma detection_defaults_to_narrow_witness :
  (exists n, trailing_dim [(key_name, PyTensor narrow_tensor)] n /\ n <> 1024)
  /\ detect_config_file demo (Some (PyInt 110000))
       (PyDict [(key_name, PyTensor narrow_tensor)]) None
     = Ok (narrow_config_file, false).
Proof.
  assert (H : exists n, trailing_dim [(key_name, PyTensor narrow_tensor)] n
                        /\ n <> 1024).
  { exists 768. split; [| discriminate].
    exists narrow_tensor. split; reflexivity. }
  split; [exact H |].
  apply (detection_defaults_to_narrow demo (Some (PyInt 110000))
           [(key_name, PyTensor narrow_tensor)]).
  right. exact H.
Defined.

(** ** The stages of a successful load *)

Section Stages.

Variable E : Externals.

Lemma resolve_schema_ok (global_step : option pyval) (checkpoint : pyval)
    (config_file_path : option string) (prediction_type : option string)
    (image_size : option Z) (s : schema) :
  resolve_schema E global_step checkpoint config_file_path prediction_type
    image_size = Ok s ->
  detect_config_file E global_step checkpoint config_file_path
  = Ok (sch_config_file s, sch_upcast_attention s)
  /\ OmegaConf_load E (sch_config_file s) = Ok (sch_config s)
  /\ resolve_regime E (sch_config s) global_step prediction_type image_size
     = Ok (sch_prediction_type s, sch_image_size s).
Proof.
  unfold resolve_schema. intros H.
  bind_inv H as [file upcast] Hdetect.
  bind_inv H as c Hload.
  bind_inv H as [target size] Hregime.
  inversion H; subst s; simpl. auto.
Qed.

Lemma detect_explicit (global_step : option pyval) (checkpoint : pyval)
    (path file : string) (upcast : bool) :
  detect_config_file E global_step checkpoint (Some path) = Ok (file, upcast) ->
  file = path /\ upcast = false.
Proof. simpl. intros H. inversion H. auto. Qed.

(** With both arguments [None], the regime is the document's
    parameterization overridden by the base-release step count. *)
Lemma resolve_regime_ok (c : yaml) (global_step : option pyval)
    (target : string) (size : Z) :
  resolve_regime E c global_step None None = Ok (target, size) ->
  exists is_v, parameterization_is_v c = Ok is_v
    /\ (is_v = false -> target = "epsilon" /\ size = 512)
    /\ (is_v = true ->
        exists base, global_step_is E global_step 875000 = Ok base
          /\ target = (if base then "epsilon" else "v_prediction")
          /\ size = (if base then 512 else 768)).
Proof.
  unfold resolve_regime. intros H.
  bind_inv H as is_v Hv. exists is_v. split; [exact Hv |].
  destruct is_v.
  - split; [discriminate |]. intros _.
    bind_inv H as t Ht. bind_inv Ht as base Hbase.
    bind_inv H as n Hn. bind_inv Hn as base' Hbase'.
    rewrite Hbase in Hbase'. inversion Hbase'; subst base'.
    exists base. inversion Ht; inversion Hn; inversion H; subst. auto.
  - split; [| discriminate]. intros _. inversion H. auto.
Qed.

Lemma build_scheduler_ok (c : yaml) (target : string) (s : DDIMScheduler) :
  build_scheduler c target = Ok s ->
  beta_schedule s = "scaled_linear"
  /\ steps_offset s = 1
  /\ clip_sample s = false
  /\ set_alpha_to_one s = false
  /\ sched_prediction_type s = target
  /\ exists model params,
       cfg_getattr c "model" = Ok model
       /\ cfg_getattr model "params" = Ok params
       /\ cfg_getattr params "timesteps" = Ok (num_train_timesteps s)
       /\ cfg_getattr params "linear_start" = Ok (beta_start s)
       /\ cfg_getattr params "linear_end" = Ok (beta_end s).
Proof.
  unfold build_scheduler. intros H.
  bind_inv H as model Hmodel. bind_inv H as params Hparams.
  bind_inv H as steps Hsteps. bind_inv H as b0 Hb0. bind_inv H as b1 Hb1.
  inversion H; subst s; simpl.
  repeat (split; [reflexivity |]).
  exists model, params. auto.
Qed.

(** The two branches that bind [pipe] pass the codec, the denoiser and
    the scheduler on unchanged. *)
Lemma build_pipe_some (model_type : string) (checkpoint : pyval)
    (vae0 unet0 : module E) (sched : DDIMScheduler) (pipe : pipe_of E) :
  build_pipe E model_type checkpoint vae0 unet0 sched = Ok (Some pipe) ->
  vae pipe = vae0 /\ unet pipe = unet0 /\ scheduler pipe = sched
  /\ applied pipe = []
  /\ (model_type = "FrozenOpenCLIPEmbedder" \/ model_type = "FrozenCLIPEmbedder").
Proof.
  unfold build_pipe. intros H.
  destruct (String.eqb_spec model_type "FrozenOpenCLIPEmbedder") as [Ho | _].
  - bind_inv H as [text_model c'] Htext. bind_inv H as tok Htok.
    bind_inv H as checker Hchecker.
    inversion H; subst pipe; simpl. auto 6.
  - destruct (String.eqb_spec model_type "FrozenCLIPEmbedder") as [Hc | _].
    + bind_inv H as [text_model c'] Htext. bind_inv H as tok Htok.
      bind_inv H as extractor Hextractor. bind_inv H as checker Hchecker.
      inversion H; subst pipe; simpl. auto 6.
    + discriminate H.
Qed.

Lemma build_pipe_unknown (model_type : string) (checkpoint : pyval)
    (vae0 unet0 : module E) (sched : DDIMScheduler) :
  model_type <> "FrozenOpenCLIPEmbedder" ->
  model_type <> "FrozenCLIPEmbedder" ->
  build_pipe E model_type checkpoint vae0 unet0 sched = Ok None.
Proof.
  intros Ho Hc. unfold build_pipe.
  destruct (String.eqb_spec model_type "FrozenOpenCLIPEmbedder");
    [contradiction |].
  destruct (String.eqb_spec model_type "FrozenCLIPEmbedder");
    [contradiction | reflexivity].
Qed.

Lemma assemble_ok (custom_model_path : string) (config_file_path : option string)
    (image_size : option Z) (prediction_type vae_file_path : option string)
    (a : assembly E) :
  assemble E custom_model_path config_file_path image_size prediction_type
    vae_file_path = Ok a ->
  exists file checkpoint sched unet0 checkpoint1 vae0 checkpoint2,
    read_checkpoint E custom_model_path = Ok file
    /\ unwrap_checkpoint file = Ok (asm_global_step a, checkpoint)
    /\ resolve_schema E (asm_global_step a) checkpoint config_file_path
         prediction_type image_size = Ok (asm_schema a)
    /\ build_scheduler (sch_config (asm_schema a))
         (sch_prediction_type (asm_schema a)) = Ok sched
    /\ build_unet E (sch_config (asm_schema a)) (sch_image_size (asm_schema a))
         (sch_upcast_attention (asm_schema a)) checkpoint custom_model_path
       = Ok (unet0, checkpoint1)
    /\ build_vae E (sch_config (asm_schema a)) (sch_image_size (asm_schema a))
         vae_file_path checkpoint1 = Ok (vae0, checkpoint2)
    /\ text_encoder_class (sch_config (asm_schema a)) = Ok (asm_model_type a)
    /\ build_pipe E (asm_model_type a) checkpoint2 vae0 unet0 sched
       = Ok (asm_pipe a).
Proof.
  unfold assemble. intros H.
  bind_inv H as file Hfile.
  bind_inv H as [global_step checkpoint] Hunwrap.
  bind_inv H as sch Hschema. bind_inv H as sched Hsched.
  bind_inv H as [unet0 checkpoint1] Hunet.
  bind_inv H as [vae0 checkpoint2] Hvae.
  bind_inv H as model_type Htype. bind_inv H as pipe Hpipe.
  inversion H; subst a; simpl.
  exists file, checkpoint, sched, unet0, checkpoint1, vae0, checkpoint2.
  auto 10.
Qed.

Lemma load_ok (custom_model_path model_name folder_path : string)
    (config_file_path : option string) (image_size : Z)
    (prediction_type vae_file_path : option string) (should_cache : bool)
    (d d' : disk E) (pipe : pipe_of E) (target : string) :
  load_ckpt_or_safetensors_file_and_cache_as_diffusers E custom_model_path
    model_name folder_path config_file_path image_size prediction_type
    vae_file_path should_cache d = (d', Ok (pipe, target)) ->
  exists a,
    assemble E custom_model_path config_file_path None None vae_file_path = Ok a
    /\ asm_pipe a = Some pipe
    /\ target = sch_prediction_type (asm_schema a)
    /\ d' = (if should_cache
             then save_pretrained pipe (path_join folder_path model_name) d
             else d).
Proof.
  unfold load_ckpt_or_safetensors_file_and_cache_as_diffusers. intros H.
  destruct (assemble E custom_model_path config_file_path None None
              vae_file_path) as [a | e]; [| inversion H].
  destruct (asm_pipe a) as [p |] eqn:Hp; [| inversion H].
  inversion H; subst. exists a. auto.
Qed.

End Stages.

(** ** The noise scheduler *)

(** C5 as stated fails for the prediction target: two checkpoints loaded
    with the same declared config source get schedulers with different
    prediction targets, and neither is the value the document holds. *)
Lemma prediction_target_counterexample :
  exists p1 p2 : pipe_of demo,
    snd (load_ckpt_or_safetensors_file_and_cache_as_diffusers demo
           "/models/wide.ckpt" "wide" "/cache" (Some wide_config_file)
           512 None None false [])
    = Ok (p1, "v_prediction")
    /\ snd (load_ckpt_or_safetensors_file_and_cache_as_diffusers demo
              "/models/base.ckpt" "base" "/cache" (Some wide_config_file)
              512 None None false [])
       = Ok (p2, "epsilon")
    /\ sched_prediction_type (scheduler p1) = "v_prediction"
    /\ sched_prediction_type (scheduler p2) = "epsilon"
    /\ (exists model params,
          cfg_getattr wide_document "model" = Ok model
          /\ cfg_getattr model "params" = Ok params
          /\ cfg_getattr params "parameterization" = Ok (YStr "v")).
Proof.
  eexists. eexists.
  split; [reflexivity |]. split; [reflexivity |].
  split; [reflexivity |]. split; [reflexivity |].
  eexists. eexists.
  split; [reflexivity |]. split; reflexivity.
Qed.

(** C5, amended.  The scheduler of every loaded pipeline has the
    scaled-linear schedule, sampling offset 1, no clipping and
    [set_alpha_to_one] off; its variance bounds and timestep count are
    the document's [linear_start], [linear_end] and [timesteps] as read;
    its prediction target is derived: epsilon unless the document
    declares the velocity parameterization, and then velocity unless the
    checkpoint's [global_step] is 875000. *)
Theorem scheduler_conventions (E : Externals)
    (custom_model_path model_name folder_path : string)
    (config_file_path : option string) (image_size : Z)
    (prediction_type vae_file_path : option string) (should_cache : bool)
    (d d' : disk E) (pipe : pipe_of E) (target : string) :
  load_ckpt_or_safetensors_file_and_cache_as_diffusers E custom_model_path
    model_name folder_path config_file_path image_size prediction_type
    vae_file_path should_cache d = (d', Ok (pipe, target)) ->
  let s := scheduler pipe in
  beta_schedule s = "scaled_linear"
  /\ steps_offset s = 1
  /\ clip_sample s = false
  /\ set_alpha_to_one s = false
  /\ sched_prediction_type s = target
  /\ exists config_file c model params file global_step checkpoint is_v,
       (forall path, config_file_path = Some path -> config_file = path)
       /\ OmegaConf_load E config_file = Ok c
       /\ cfg_getattr c "model" = Ok model
       /\ cfg_getattr model "params" = Ok params
       /\ cfg_getattr params "timesteps" = Ok (num_train_timesteps s)
       /\ cfg_getattr params "linear_start" = Ok (beta_start s)
       /\ cfg_getattr params "linear_end" = Ok (beta_end s)
       /\ read_checkpoint E custom_model_path = Ok file
       /\ unwrap_checkpoint file = Ok (global_step, checkpoint)
       /\ parameterization_is_v c = Ok is_v
       /\ (is_v = false -> target = "epsilon")
       /\ (is_v = true ->
           exists base, global_step_is E global_step 875000 = Ok base
             /\ target = (if base then "epsilon" else "v_prediction")).
Proof.
  intros H s.
  destruct (load_ok E _ _ _ _ _ _ _ _ _ _ _ _ H) as [a [Ha [Hp [Ht _]]]].
  destruct (assemble_ok E _ _ _ _ _ _ Ha)
    as (file & checkpoint & sched & unet0 & c1 & vae0 & c2
        & Hfile & Hunwrap & Hschema & Hsched & _ & _ & _ & Hpipe).
  rewrite Hp in Hpipe.
  destruct (build_pipe_some E _ _ _ _ _ _ Hpipe) as [_ [_ [Hs _]]].
  destruct (build_scheduler_ok _ _ _ Hsched)
    as (Hb & Ho & Hc & Hal & Hpt & model & params & Hm & Hpa & Hts & Hls & Hle).
  destruct (resolve_schema_ok E _ _ _ _ _ _ Hschema) as [Hdetect [Hload Hregime]].
  destruct (resolve_regime_ok E _ _ _ _ Hregime) as [is_v [Hv [Hfalse Htrue]]].
  unfold s. rewrite Hs.
  repeat (split; [assumption || congruence |]).
  exists (sch_config_file (asm_schema a)), (sch_config (asm_schema a)),
    model, params, file, (asm_global_step a), checkpoint, is_v.
  split.
  { intros path ->. apply (detect_explicit E _ _ _ _ _ Hdetect). }
  repeat (split; [assumption |]).
  split.
  - intros Hf. rewrite Ht. apply (Hfalse Hf).
  - intros Hv'. destruct (Htrue Hv') as [base [Hbase [Htarget _]]].
    exists base. rewrite Ht. auto.
Qed.

Lemma scheduler_conventions_witness :
  exists (d' : disk demo) (pipe : pipe_of demo),
    load_ckpt_or_safetensors_file_and_cache_as_diffusers demo
      "/models/base.ckpt" "base" "/cache" None 512 None None true []
    = (d', Ok (pipe, "epsilon"))
    /\ beta_schedule (scheduler pipe) = "scaled_linear"
    /\ beta_start (scheduler pipe) = YFloat 4560979089502898015.
Proof.
  eexists. eexists. split; [reflexivity |].
  match goal with
  | |- beta_schedule (scheduler ?p) = _ /\ _ =>
      pose proof (scheduler_conventions demo "/models/base.ckpt" "base" "/cache"
                    None 512 None None true [] _ p "epsilon" eq_refl) as H
  end.
  destruct H as [Hb _]. split; [exact Hb | reflexivity].
Defined.

(** ** The image codec *)

Section Codec.

Variable E : Externals.

Lemma build_vae_ok (c : yaml) (size : Z) (vae_file_path : option string)
    (checkpoint checkpoint' : pyval) (vae0 : module E) :
  build_vae E c size vae_file_path checkpoint = Ok (vae0, checkpoint') ->
  exists vae_config converted fresh,
    create_vae_diffusers_config E c size = Ok vae_config
    /\ convert_vae E vae_file_path vae_config checkpoint = Ok (converted, checkpoint')
    /\ AutoencoderKL E vae_config = Ok fresh
    /\ load_state_dict E fresh converted = Ok vae0.
Proof.
  unfold build_vae. intros H.
  bind_inv H as vae_config Hconfig.
  bind_inv H as [converted c'] Hconvert.
  bind_inv H as fresh Hfresh. bind_inv H as loaded Hloaded.
  inversion H; subst. exists vae_config, converted, fresh. auto.
Qed.

Lemma convert_vae_from_file (path : string) (vae_config : dict yaml)
    (checkpoint checkpoint' : pyval) (converted : dict tensor) :
  str_truthy (Some path) = Some path ->
  convert_vae E (Some path) vae_config checkpoint = Ok (converted, checkpoint') ->
  checkpoint' = checkpoint
  /\ exists vae_ckpt state items,
       torch_load E path = Ok vae_ckpt
       /\ py_getitem vae_ckpt "state_dict" = Ok state
       /\ py_items state = Ok items
       /\ convert_ldm_vae_checkpoint_from_file E (drop_loss_and_ema items) vae_config
          = Ok converted.
Proof.
  intros Hp. unfold convert_vae. rewrite Hp. intros H.
  bind_inv H as vae_ckpt Hload. bind_inv H as state Hstate.
  bind_inv H as items Hitems. bind_inv H as c Hc.
  inversion H; subst. split; [reflexivity |].
  exists vae_ckpt, state, items. auto.
Qed.



End Codec.


(** ** The text-encoder family *)

(** C7 fails on the code: when the document names a text-encoder class
    other than the two known ones and every earlier stage succeeds,
    neither branch binds [pipe], and the load ends in an
    [UnboundLocalError] with nothing written. *)
Theorem unknown_family_unbound (E : Externals)
    (custom_model_path model_name folder_path : string)
    (config_file_path : option string) (image_size : Z)
    (prediction_type vae_file_path : option string) (should_cache : bool)
    (d : disk E) (a : assembly E) :
  assemble E custom_model_path config_file_path None None vae_file_path = Ok a ->
  asm_model_type a <> "FrozenOpenCLIPEmbedder" ->
  asm_model_type a <> "FrozenCLIPEmbedder" ->
  load_ckpt_or_safetensors_file_and_cache_as_diffusers E custom_model_path
    model_name folder_path config_file_path image_size prediction_type
    vae_file_path should_cache d
  = (d, Raise unbound_pipe)
  /\ exn_class unbound_pipe <> "UnsupportedTextEncoderFamily".
Proof.
  intros Ha Ho Hc.
  destruct (assemble_ok E _ _ _ _ _ _ Ha)
    as (file & checkpoint & sched & unet0 & c1 & vae0 & c2
        & _ & _ & _ & _ & _ & _ & _ & Hpipe).
  rewrite (build_pipe_unknown E _ c2 vae0 unet0 sched Ho Hc) in Hpipe.
  split; [| discriminate].
  unfold load_ckpt_or_safetensors_file_and_cache_as_diffusers.
  rewrite Ha. inversion Hpipe as [Hnone]. reflexivity.
Qed.

Lemma unknown_family_unbound_witness :
  exists a : assembly demo,
    assemble demo "/models/narrow.ckpt" (Some "/models/t5.yaml") None None None
    = Ok a
    /\ asm_model_type a = "FrozenT5Embedder"
    /\ load_ckpt_or_safetensors_file_and_cache_as_diffusers demo
         "/models/narrow.ckpt" "narrow" "/cache" (Some "/models/t5.yaml")
         512 None None true []
       = ([], Raise unbound_pipe).
Proof.
  eexists. split; [reflexivity |]. split; [reflexivity |].
  apply (unknown_family_unbound demo "/models/narrow.ckpt" "narrow" "/cache"
           (Some "/models/t5.yaml") 512 None None true [] _ eq_refl);
    discriminate.
Defined.

(** ** Overwritten arguments *)

(** C9.  The arguments [image_size] and [prediction_type] do not reach
    the result: any values give what the defaults give, and the
    prediction target returned is one of the two the loader derives
    itself, whatever was passed. *)
Theorem overwritten_arguments_ignored (E : Externals)
    (custom_model_path model_name folder_path : string)
    (config_file_path : option string) (image_size : Z)
    (prediction_type vae_file_path : option string) (should_cache : bool)
    (d : disk E) :
  load_ckpt_or_safetensors_file_and_cache_as_diffusers E custom_model_path
    model_name folder_path config_file_path image_size prediction_type
    vae_file_path should_cache d
  = load_ckpt_or_safetensors_file_and_cache_as_diffusers E custom_model_path
      model_name folder_path config_file_path 512 None
      vae_file_path should_cache d
  /\ forall d' pipe target,
       load_ckpt_or_safetensors_file_and_cache_as_diffusers E custom_model_path
         model_name folder_path config_file_path image_size prediction_type
         vae_file_path should_cache d = (d', Ok (pipe, target)) ->
       target = "epsilon" \/ target = "v_prediction".
Proof.
  split; [reflexivity |].
  intros d' pipe target H.
  destruct (load_ok E _ _ _ _ _ _ _ _ _ _ _ _ H) as [a [Ha [_ [Ht _]]]].
  destruct (assemble_ok E _ _ _ _ _ _ Ha)
    as (file & checkpoint & sched & unet0 & c1 & vae0 & c2
        & _ & _ & Hschema & _).
  destruct (resolve_schema_ok E _ _ _ _ _ _ Hschema) as [_ [_ Hregime]].
  destruct (resolve_regime_ok E _ _ _ _ Hregime) as [is_v [_ [Hfalse Htrue]]].
  rewrite Ht. destruct is_v.
  - destruct (Htrue eq_refl) as [base [_ [Htarget _]]].
    rewrite Htarget. destruct base; auto.
  - destruct (Hfalse eq_refl) as [Htarget _]. auto.
Qed.

Lemma overwritten_arguments_ignored_witness :
  exists (d' : disk demo) (pipe : pipe_of demo),
    load_ckpt_or_safetensors_file_and_cache_as_diffusers demo
      "/models/wide.ckpt" "wide" "/cache" None 1024 (Some "sample") None
      false []
    = (d', Ok (pipe, "v_prediction"))
    /\ ("v_prediction" = "epsilon" \/ "v_prediction" = "v_prediction").
Proof.
  eexists. eexists. split; [reflexivity |].
  destruct (overwritten_arguments_ignored demo "/models/wide.ckpt" "wide"
              "/cache" None 1024 (Some "sample") None false []) as [_ Htarget].
  exact (Htarget _ _ "v_prediction" eq_refl).
Defined.

(** Had lines 188-189 not overwritten them, the two arguments would
    decide the regime. *)
Lemma regime_honours_arguments (E : Externals) (c : yaml)
    (global_step : option pyval) (is_v : bool) (target : string) (size : Z) :
  parameterization_is_v c = Ok is_v ->
  resolve_regime E c global_step (Some target) (Some size) = Ok (target, size).
Proof.
  intros Hv. unfold resolve_regime. rewrite Hv. destruct is_v; reflexivity.
Qed.

(** ** The entry point *)

Section EntryPoint.

Variable E : Externals.

Lemma mbind_ok {A B : Type} (m : M E A) (f : A -> M E B) (d d' : disk E) (b : B) :
  mbind E m f d = (d', Ok b) ->
  exists d1 a, m d = (d1, Ok a) /\ f a d1 = (d', Ok b).
Proof.
  unfold mbind. destruct (m d) as [d1 [a | e]]; intros H.
  - exists d1, a. auto.
  - inversion H.
Qed.

Lemma post_load_xformers (slicing : bool) (pipe : pipe_of E) :
  applied (post_load E slicing true pipe) = (applied pipe ++ xformers_calls)%list
  /\ vae (post_load E slicing true pipe) = vae pipe
  /\ unet (post_load E slicing true pipe) = unet pipe
  /\ text_encoder (post_load E slicing true pipe) = text_encoder pipe.
Proof.
  unfold post_load, invoke, xformers_calls. simpl.
  rewrite <- !app_assoc. simpl. auto.
Qed.

(** C10.  With [enable_xformers] set, whatever [enable_attention_slicing]
    is, the returned pipeline is the loaded one with the fused-kernel
    attention call made on it and no slicing call. *)
Theorem xformers_takes_precedence (model_name model_type : string)
    (downloadable_model_dict : dict json)
    (custom_model_dict cached_model_dict : option (dict json))
    (enable_attention_slicing : bool) (d d' : disk E)
    (pipe : pipe_of E) (pipe_info : json) :
  prepare_pipe E model_name model_type downloadable_model_dict
    custom_model_dict cached_model_dict enable_attention_slicing true d
  = (d', Ok (pipe, pipe_info)) ->
  exists loaded,
    select_source E model_name model_type downloadable_model_dict
      custom_model_dict cached_model_dict d = (d', Ok (Some loaded, pipe_info))
    /\ applied pipe = (applied loaded ++ xformers_calls)%list
    /\ In EnableXformersMemoryEfficientAttention xformers_calls
    /\ ~ In EnableAttentionSlicing xformers_calls.
Proof.
  unfold prepare_pipe. intros H.
  apply mbind_ok in H. destruct H as (d1 & [loaded info] & Hsel & H).
  simpl in H. destruct loaded as [loaded |]; unfold lift in H; inversion H; subst.
  exists loaded. split; [exact Hsel |].
  split; [apply post_load_xformers |].
  split.
  - simpl. auto.
  - simpl. intros [Hc | [Hc | [Hc | [Hc | []]]]]; discriminate Hc.
Qed.


End EntryPoint.

(** A custom-model table with one entry. *)
Lemma xformers_takes_precedence_witness :
  exists (d' : disk demo) (pipe : pipe_of demo) (pipe_info : json),
    prepare_pipe demo "narrow" "Custom Models" []
      (Some [("narrow",
              JDict [("path", JStr "/models/narrow.ckpt"); ("config", JNull);
                     ("vae", JStr ""); ("keywords", JStr "kw")])])
      None true true []
    = (d', Ok (pipe, pipe_info))
    /\ exists loaded : pipe_of demo,
         applied pipe = (applied loaded ++ xformers_calls)%list
         /\ ~ In EnableAttentionSlicing xformers_calls.
Proof.
  eexists. eexists. eexists. split; [reflexivity |].
  match goal with
  | |- exists loaded : _, applied ?p = _ /\ _ =>
      destruct (xformers_takes_precedence demo "narrow" "Custom Models" []
                  (Some [("narrow",
                          JDict [("path", JStr "/models/narrow.ckpt");
                                 ("config", JNull); ("vae", JStr "");
                                 ("keywords", JStr "kw")])])
                  None true [] _ p _ eq_refl)
        as [loaded [_ [Happlied [_ Hslicing]]]]
  end.
  exists loaded. split; [exact Happlied | exact Hslicing].
Defined.



(** ** Paths and strings on examples *)

Example splitext_safetensors :
  splitext "/a/b/model.safetensors" = ("/a/b/model", ".safetensors").
Proof. reflexivity. Qed.

Example splitext_dotted_directory : splitext "/a.b/model" = ("/a.b/model", "").
Proof. reflexivity. Qed.

Example splitext_hidden_file : splitext "/a/.hidden" = ("/a/.hidden", "").
Proof. reflexivity. Qed.

Example path_join_plain : path_join "/cache" "m" = "/cache/m".
Proof. reflexivity. Qed.

Example path_join_trailing_separator : path_join "/cache/" "m" = "/cache/m".
Proof. reflexivity. Qed.

Example path_join_absolute : path_join "/cache" "/m" = "/m".
Proof. reflexivity. Qed.

Example last_segment_class :
  last_segment "ldm.modules.encoders.modules.FrozenCLIPEmbedder"
  = "FrozenCLIPEmbedder".
Proof. reflexivity. Qed.

Example drop_loss_and_ema_keeps_weights :
  map fst (drop_loss_and_ema
             [("loss.logvar", PyInt 0); ("decoder.conv_in.weight", PyInt 1);
              ("model_ema.decay", PyInt 2); ("model_ema.num_updates", PyInt 3);
              ("los", PyInt 4)])
  = ["decoder.conv_in.weight"; "los"].
Proof. reflexivity. Qed.

Example zero_dim_tensor_raises :
  exists e,
    detect_config_file demo None
      (PyDict [(key_name, PyTensor (Tensor [] [7]))]) None = Raise e
    /\ exn_class e = "IndexError".
Proof. eexists. split; reflexivity. Qed.

(** ** The cache write *)

Lemma dict_get_set {V : Type} (k : string) (v : V) (d : dict V) :
  dict_get k (dict_set k v d) = Some v.
Proof.
  induction d as [| [k' v'] d IH]; simpl.
  - rewrite String.eqb_refl. reflexivity.
  - destruct (String.eqb k' k) eqn:Hk; simpl; rewrite Hk; [reflexivity | exact IH].
Qed.

Lemma dict_get_set_other {V : Type} (k k0 : string) (v : V) (d : dict V) :
  k0 <> k -> dict_get k0 (dict_set k v d) = dict_get k0 d.
Proof.
  intros Hne. induction d as [| [k' v'] d IH]; simpl.
  - destruct (String.eqb_spec k k0) as [Heq | _]; [congruence | reflexivity].
  - destruct (String.eqb_spec k' k) as [-> | Hk]; simpl.
    + destruct (String.eqb_spec k k0) as [Heq | _]; [congruence | reflexivity].
    + destruct (String.eqb k' k0); [reflexivity | exact IH].
Qed.

(** A successful load with [should_cache] leaves the returned pipeline
    under [os.path.join(folder_path, model_name)] and touches no other
    directory; without it the disk is as before. *)
Lemma load_writes_cache_entry (E : Externals)
    (custom_model_path model_name folder_path : string)
    (config_file_path : option string) (image_size : Z)
    (prediction_type vae_file_path : option string) (should_cache : bool)
    (d d' : disk E) (pipe : pipe_of E) (target : string) :
  load_ckpt_or_safetensors_file_and_cache_as_diffusers E custom_model_path
    model_name folder_path config_file_path image_size prediction_type
    vae_file_path should_cache d = (d', Ok (pipe, target)) ->
  (should_cache = true ->
   dict_get (path_join folder_path model_name) d' = Some pipe
   /\ forall other, other <> path_join folder_path model_name ->
                    dict_get other d' = dict_get other d)
  /\ (should_cache = false -> d' = d).
Proof.
  intros H.
  destruct (load_ok E _ _ _ _ _ _ _ _ _ _ _ _ H) as [a [_ [_ [_ Hd]]]].
  split; intros ->; subst d'; [| reflexivity].
  unfold save_pretrained. split.
  - apply dict_get_set.
  - intros other Hne. apply dict_get_set_other. exact Hne.
Qed.

Lemma load_writes_cache_entry_witness :
  exists (d' : disk demo) (pipe : pipe_of demo),
    load_ckpt_or_safetensors_file_and_cache_as_diffusers demo
      "/models/narrow.ckpt" "narrow" "/cache" None 512 None None true []
    = (d', Ok (pipe, "epsilon"))
    /\ dict_get "/cache/narrow" d' = Some pipe.
Proof.
  eexists. eexists. split; [reflexivity |].
  destruct (load_writes_cache_entry demo "/models/narrow.ckpt" "narrow" "/cache"
              None 512 None None true [] _ _ "epsilon" eq_refl) as [Hcached _].
  destruct (Hcached eq_refl) as [Hget _]. exact Hget.
Defined.



Lemma prefix_app (a b : string) : prefix a (a ++ b) = true.
Proof.
  induction a as [| c a IH]; simpl; [destruct b; reflexivity |].
  destruct (ascii_dec c c) as [_ | Hne]; [exact IH | contradiction Hne; reflexivity].
Qed.

Lemma path_join_relative (a b : string) :
  prefix "/" b = false -> prefix a (path_join a b) = true.
Proof.
  intros Hb. unfold path_join. rewrite Hb.
  destruct (String.eqb a "" || ends_with_sep a); apply prefix_app.
Qed.

(** The cache directory is [os.path.join(folder_path, model_name)]: a
    model name starting with a slash sends the pipeline to that absolute
    path, outside the cache root; any other name keeps it under the
    root. *)
Theorem cache_entry_location (E : Externals)
    (custom_model_path model_name folder_path : string)
    (config_file_path : option string) (image_size : Z)
    (prediction_type vae_file_path : option string)
    (d d' : disk E) (pipe : pipe_of E) (target : string) :
  load_ckpt_or_safetensors_file_and_cache_as_diffusers E custom_model_path
    model_name folder_path config_file_path image_size prediction_type
    vae_file_path true d = (d', Ok (pipe, target)) ->
  (prefix "/" model_name = true -> dict_get model_name d' = Some pipe)
  /\ (prefix "/" model_name = false ->
      exists path, prefix folder_path path = true
                   /\ dict_get path d' = Some pipe).
Proof.
  intros H.
  destruct (load_ok E _ _ _ _ _ _ _ _ _ _ _ _ H) as [a [_ [_ [_ Hd]]]].
  subst d'. unfold save_pretrained. split; intros Hname.
  - unfold path_join. rewrite Hname. apply dict_get_set.
  - exists (path_join folder_path model_name). split.
    + apply path_join_relative. exact Hname.
    + apply dict_get_set.
Qed.

Lemma cache_entry_location_witness :
  exists (d' : disk demo) (pipe : pipe_of demo),
    load_ckpt_or_safetensors_file_and_cache_as_diffusers demo
      "/models/narrow.ckpt" "/elsewhere/narrow" "/cache" None 512 None None
      true []
    = (d', Ok (pipe, "epsilon"))
    /\ dict_get "/elsewhere/narrow" d' = Some pipe.
Proof.
  eexists. eexists. split; [reflexivity |].
  destruct (cache_entry_location demo "/models/narrow.ckpt" "/elsewhere/narrow"
              "/cache" None 512 None None [] _ _ "epsilon" eq_refl)
    as [Habsolute _].
  apply Habsolute. reflexivity.
Defined.

(** ** Detection on any checkpoint *)

(** Without an explicit config, detection answers with one of the two
    shipped documents and nothing else; [upcast_attention] can only be
    set together with the wide document, and then it is the outcome of
    comparing [global_step] with 110000. *)
Theorem detection_outcomes (E : Externals) (global_step : option pyval)
    (checkpoint : pyval) (file : string) (upcast : bool) :
  detect_config_file E global_step checkpoint None = Ok (file, upcast) ->
  (file = narrow_config_file /\ upcast = false)
  \/ (file = wide_config_file
      /\ global_step_is E global_step 110000 = Ok upcast
      /\ exists d, checkpoint = PyDict d /\ trailing_dim d 1024).
Proof.
  unfold detect_config_file. intros H.
  bind_inv H as present Hpresent.
  bind_inv H as wide Hwide.
  destruct wide.
  - right. bind_inv H as v21 Hv21. inversion H; subst.
    split; [reflexivity |]. split; [exact Hv21 |].
    destruct present; [| discriminate Hwide].
    bind_inv Hwide as t Ht. bind_inv Hwide as s Hs. bind_inv Hwide as n Hn.
    inversion Hwide as [Heq]. apply Z.eqb_eq in Heq. subst n.
    destruct checkpoint as [m | t0 | d]; try discriminate Hpresent.
    exists d. split; [reflexivity |].
    simpl in Ht. destruct (dict_get key_name d) as [v |] eqn:Hk;
      [| discriminate Ht].
    inversion Ht; subst v.
    destruct t as [m | t0 | d0]; try discriminate Hs.
    inversion Hs; subst s. exists t0. auto.
  - left. inversion H. auto.
Qed.

Lemma detection_outcomes_witness :
  detect_config_file demo (Some (PyInt 110000))
    (PyDict [(key_name, PyTensor wide_tensor)]) None
  = Ok (wide_config_file, true)
  /\ global_step_is demo (Some (PyInt 110000)) 110000 = Ok true.
Proof.
  split; [reflexivity |].
  destruct (detection_outcomes demo (Some (PyInt 110000))
              (PyDict [(key_name, PyTensor wide_tensor)]) wide_config_file true
              eq_refl) as [[Hfile _] | [_ [Hstep _]]].
  - discriminate Hfile.
  - exact Hstep.
Defined.

(** Detection reads the trailing dimension without checking what it
    reads it from: a scalar tensor under the distinguishing key ends in
    an [IndexError], a value that is not a tensor in an
    [AttributeError]. *)
Theorem detection_malformed_key (E : Externals) (global_step : option pyval)
    (d : dict pyval) (v : pyval) :
  dict_get key_name d = Some v ->
  (forall t, v = PyTensor t -> shape t = [] ->
     exists e, detect_config_file E global_step (PyDict d) None = Raise e
               /\ exn_class e = "IndexError")
  /\ ((forall t, v <> PyTensor t) ->
      exists e, detect_config_file E global_step (PyDict d) None = Raise e
                /\ exn_class e = "AttributeError").
Proof.
  intros Hk. split.
  - intros t -> Hshape.
    unfold detect_config_file, py_contains, dict_mem, py_getitem.
    rewrite Hk. simpl. unfold last_dim. rewrite Hshape. simpl.
    eexists. split; reflexivity.
  - intros Hnot.
    unfold detect_config_file, py_contains, dict_mem, py_getitem.
    rewrite Hk. simpl.
    destruct v as [n | t | d0]; simpl.
    + eexists. split; reflexivity.
    + contradiction (Hnot t). reflexivity.
    + eexists. split; reflexivity.
Qed.

Lemma detection_malformed_key_witness :
  dict_get key_name [(key_name, PyInt 3)] = Some (PyInt 3)
  /\ exists e,
       detect_config_file demo None (PyDict [(key_name, PyInt 3)]) None = Raise e
       /\ exn_class e = "AttributeError".
Proof.
  split; [reflexivity |].
  destruct (detection_malformed_key demo None [(key_name, PyInt 3)] (PyInt 3)
              eq_refl) as [_ Hother].
  apply Hother. intros t H. discriminate H.
Defined.

(** The regime is one of two pairs: epsilon at 512 or velocity at 768;
    velocity needs a document that declares it. *)
Theorem regime_pairs (E : Externals) (global_step : option pyval)
    (checkpoint : pyval) (config_file_path : option string) (s : schema) :
  resolve_schema E global_step checkpoint config_file_path None None = Ok s ->
  (sch_prediction_type s = "epsilon" /\ sch_image_size s = 512)
  \/ (sch_prediction_type s = "v_prediction" /\ sch_image_size s = 768
      /\ parameterization_is_v (sch_config s) = Ok true
      /\ global_step_is E global_step 875000 = Ok false).
Proof.
  intros H.
  destruct (resolve_schema_ok E _ _ _ _ _ _ H) as [_ [_ Hregime]].
  destruct (resolve_regime_ok E _ _ _ _ Hregime) as [is_v [Hv [Hfalse Htrue]]].
  destruct is_v.
  - destruct (Htrue eq_refl) as [base [Hbase [Ht Hs]]].
    destruct base; [left | right]; auto.
  - left. apply Hfalse. reflexivity.
Qed.

Lemma regime_pairs_witness :
  exists s,
    resolve_schema demo (Some (PyInt 140000))
      (PyDict [(key_name, PyTensor wide_tensor)]) None None None = Ok s
    /\ ((sch_prediction_type s = "epsilon" /\ sch_image_size s = 512)
        \/ (sch_prediction_type s = "v_prediction" /\ sch_image_size s = 768
            /\ parameterization_is_v (sch_config s) = Ok true
            /\ global_step_is demo (Some (PyInt 140000)) 875000 = Ok false)).
Proof.
  eexists. split; [reflexivity |].
  apply (regime_pairs demo (Some (PyInt 140000))
           (PyDict [(key_name, PyTensor wide_tensor)]) None).
  reflexivity.
Defined.

(** ** Reading a tensor container *)

Section Container.

Lemma fold_step_absent (f : list (string * tensor)) (acc : dict pyval)
    (k : string) :
  ~ In k (map fst f) -> dict_get k (fold_left store_tensor f acc) = dict_get k acc.
Proof.
  revert acc. induction f as [| [k' t'] f IH]; intros acc Hk; simpl.
  - reflexivity.
  - simpl in Hk. rewrite IH by tauto.
    unfold store_tensor. simpl. apply dict_get_set_other. intros Heq. apply Hk. auto.
Qed.

Lemma fold_step_present (f : list (string * tensor)) (acc : dict pyval)
    (k : string) (t : tensor) :
  NoDup (map fst f) -> In (k, t) f ->
  dict_get k (fold_left store_tensor f acc) = Some (PyTensor t).
Proof.
  revert acc. induction f as [| [k' t'] f IH]; intros acc Hnd Hin; simpl.
  - contradiction Hin.
  - simpl in Hnd. inversion Hnd as [| x l Hnotin Hnd']; subst.
    destruct Hin as [Heq | Hin].
    + inversion Heq; subst. rewrite fold_step_absent by exact Hnotin.
      unfold store_tensor. simpl. apply dict_get_set.
    + apply IH; assumption.
Qed.

Lemma fold_step_origin (f : list (string * tensor)) (acc : dict pyval)
    (k : string) (v : pyval) :
  dict_get k (fold_left store_tensor f acc) = Some v ->
  (exists t, v = PyTensor t /\ In (k, t) f) \/ dict_get k acc = Some v.
Proof.
  revert acc. induction f as [| [k' t'] f IH]; intros acc H; simpl in *.
  - right. exact H.
  - destruct (IH _ H) as [[t [Hv Hin]] | Hacc].
    + left. exists t. auto.
    + unfold store_tensor in Hacc. simpl in Hacc.
      destruct (String.eqb_spec k' k) as [-> | Hne].
      * rewrite dict_get_set in Hacc. inversion Hacc; subst.
        left. exists t'. auto.
      * rewrite dict_get_set_other in Hacc by congruence. right. exact Hacc.
Qed.

(** A file with the extension [.safetensors] is read through the
    container interface alone, and the checkpoint holds exactly the
    container's tensors, each under its own key. *)
Theorem container_checkpoint (E : Externals) (custom_model_path : string)
    (f : list (string * tensor)) :
  snd (splitext custom_model_path) = ".safetensors" ->
  safe_open E custom_model_path = Ok f ->
  NoDup (map fst f) ->
  exists d,
    read_checkpoint E custom_model_path = Ok (PyDict d)
    /\ forall k v, dict_get k d = Some v <-> exists t, v = PyTensor t /\ In (k, t) f.
Proof.
  intros Hext Hopen Hnd.
  exists (fold_left store_tensor f []). split.
  - unfold read_checkpoint.
    destruct (splitext custom_model_path) as [root ext]. simpl in Hext.
    subst ext. simpl. rewrite Hopen. reflexivity.
  - intros k v. split.
    + intros H. destruct (fold_step_origin _ _ _ _ H) as [Hin | Hnil];
        [exact Hin | discriminate Hnil].
    + intros [t [-> Hin]]. apply fold_step_present; assumption.
Qed.

End Container.

Lemma container_checkpoint_witness :
  exists d,
    read_checkpoint (mem_externals [] [("/m/wide.safetensors", demo_container)] [])
      "/m/wide.safetensors" = Ok (PyDict d)
    /\ dict_get key_name d = Some (PyTensor wide_tensor).
Proof.
  destruct (container_checkpoint
              (mem_externals [] [("/m/wide.safetensors", demo_container)] [])
              "/m/wide.safetensors" demo_container eq_refl eq_refl)
    as [d [Hread Hkeys]].
  - repeat constructor; simpl; intuition discriminate.
  - exists d. split; [exact Hread |].
    apply Hkeys. exists wide_tensor. split; [reflexivity |]. left. reflexivity.
Defined.

(** ** The separate codec file's entries *)

Lemma kept_key_spec (k : string) (v : pyval) :
  (negb (String.eqb (substring 0 4 (fst (k, v))) "loss")
   && negb (String.eqb (fst (k, v)) "model_ema.decay"
            || String.eqb (fst (k, v)) "model_ema.num_updates")) = true
  <-> kept_key k.
Proof.
  unfold kept_key. simpl.
  destruct (String.eqb_spec (substring 0 4 k) "loss");
    destruct (String.eqb_spec k "model_ema.decay");
    destruct (String.eqb_spec k "model_ema.num_updates"); simpl;
    split; intros H; try discriminate H; try tauto; auto.
Qed.

(** The comprehension keeps an entry exactly when its key does not start
    with [loss] and is neither EMA counter; it keeps the order, and
    filtering twice changes nothing. *)
Theorem drop_loss_and_ema_keeps (items : dict pyval) :
  (forall k v, In (k, v) (drop_loss_and_ema items) <-> In (k, v) items /\ kept_key k)
  /\ (forall k, prefix "loss" k = true -> dict_get k (drop_loss_and_ema items) = None)
  /\ drop_loss_and_ema (drop_loss_and_ema items) = drop_loss_and_ema items.
Proof.
  split; [| split].
  - intros k v. unfold drop_loss_and_ema. rewrite filter_In.
    rewrite kept_key_spec. reflexivity.
  - intros k Hk. induction items as [| [k' v'] items IH]; simpl; [reflexivity |].
    destruct (negb (String.eqb (substring 0 4 k') "loss")
              && negb (String.eqb k' "model_ema.decay"
                       || String.eqb k' "model_ema.num_updates")) eqn:Hkeep;
      [| exact IH].
    simpl. destruct (String.eqb_spec k' k) as [-> | _]; [| exact IH].
    exfalso.
    apply andb_prop in Hkeep. destruct Hkeep as [Hloss _].
    assert (Hsub : substring 0 4 k = "loss").
    { apply prefix_correct in Hk. exact Hk. }
    rewrite Hsub in Hloss. discriminate Hloss.
  - unfold drop_loss_and_ema.
    induction items as [| kv items IH]; simpl; [reflexivity |].
    match goal with
    | |- context [if ?c then _ else _] => destruct c eqn:Hc
    end; simpl.
    + rewrite Hc. rewrite IH. reflexivity.
    + exact IH.
Qed.

(** ** The class name of the text encoder *)

Lemma string_app_assoc (a b c : string) : ((a ++ b) ++ c = a ++ (b ++ c))%string.
Proof. induction a as [| x a IH]; simpl; [reflexivity | rewrite IH; reflexivity]. Qed.

Lemma last_segment_from_dotless (acc name : string) :
  dotless name = true -> last_segment_from acc name = (acc ++ name)%string.
Proof.
  revert acc. induction name as [| a name IH]; intros acc Hd; simpl.
  - induction acc as [| x acc IHacc]; simpl; [reflexivity | rewrite <- IHacc; reflexivity].
  - simpl in Hd. apply andb_prop in Hd. destruct Hd as [Ha Hd].
    destruct (Ascii.eqb a "."); [discriminate Ha |].
    rewrite (IH _ Hd). rewrite string_app_assoc. reflexivity.
Qed.

Lemma last_segment_from_qualified (acc path name : string) :
  dotless name = true ->
  last_segment_from acc (path ++ "." ++ name) = name.
Proof.
  intros Hd. revert acc. induction path as [| a path IH]; intros acc; simpl.
  - apply (last_segment_from_dotless "" name Hd).
  - destruct (Ascii.eqb a "."); apply IH.
Qed.

(** Only the last dotted component of the declared target decides the
    family: whatever module path precedes it, the class name alone is
    compared. *)
Theorem text_encoder_class_ignores_module (c model params stage : yaml)
    (module_path name : string) :
  cfg_getattr c "model" = Ok model ->
  cfg_getattr model "params" = Ok params ->
  cfg_getattr params "cond_stage_config" = Ok stage ->
  cfg_getattr stage "target" = Ok (YStr (module_path ++ "." ++ name)) ->
  dotless name = true ->
  text_encoder_class c = Ok name.
Proof.
  intros Hm Hp Hs Ht Hd. unfold text_encoder_class.
  rewrite Hm. simpl. rewrite Hp. simpl. rewrite Hs. simpl. rewrite Ht. simpl.
  unfold last_segment. rewrite (last_segment_from_qualified "" _ _ Hd).
  reflexivity.
Qed.

Lemma text_encoder_class_ignores_module_witness :
  text_encoder_class
    (YMap [("model", YMap [("params", YMap [("cond_stage_config",
       YMap [("target", YStr ("my.fork" ++ "." ++ "FrozenCLIPEmbedder"))])])])])
  = Ok "FrozenCLIPEmbedder".
Proof.
  eapply text_encoder_class_ignores_module; reflexivity.
Defined.

Lemma drop_loss_and_ema_keeps_witness :
  prefix "loss" "loss.logvar" = true
  /\ dict_get "loss.logvar"
       (drop_loss_and_ema
          [("loss.logvar", PyInt 0); ("decoder.conv_in.weight", PyInt 1)])
     = None.
Proof.
  split; [reflexivity |].
  destruct (drop_loss_and_ema_keeps
              [("loss.logvar", PyInt 0); ("decoder.conv_in.weight", PyInt 1)])
    as [_ [Hloss _]].
  apply Hloss. reflexivity.
Defined.

(** ** The parts of a loaded pipeline *)

Section Wiring.

Variable E : Externals.

Lemma build_pipe_wiring (model_type : string) (checkpoint : pyval)
    (vae0 unet0 : module E) (sched : DDIMScheduler) (pipe : pipe_of E) :
  build_pipe E model_type checkpoint vae0 unet0 sched = Ok (Some pipe) ->
  requires_safety_checker pipe = false
  /\ (exists checker,
        safety_checker pipe = Some checker
        /\ StableDiffusionSafetyChecker_from_pretrained E
             "CompVis/stable-diffusion-safety-checker" = Ok checker)
  /\ family_parts E model_type checkpoint pipe.
Proof.
  unfold build_pipe, family_parts. intros H.
  destruct (String.eqb_spec model_type "FrozenOpenCLIPEmbedder") as [Ho | _].
  - bind_inv H as [text_model c'] Htext. bind_inv H as tok Htok.
    bind_inv H as checker Hchecker.
    inversion H; subst pipe; simpl.
    split; [reflexivity |]. split; [exists checker; auto |].
    left. repeat (split; [assumption || reflexivity |]). exists c'. exact Htext.
  - destruct (String.eqb_spec model_type "FrozenCLIPEmbedder") as [Hc | _].
    + bind_inv H as [text_model c'] Htext. bind_inv H as tok Htok.
      bind_inv H as extractor Hextractor. bind_inv H as checker Hchecker.
      inversion H; subst pipe; simpl.
      split; [reflexivity |]. split; [exists checker; auto |].
      right. split; [assumption |].
      split; [exists extractor; auto |].
      split; [assumption |]. exists c'. exact Htext.
    + discriminate H.
Qed.

(** Every loaded pipeline is fresh (no method invoked on it yet), does
    not require its safety checker although one is always fetched, and
    has the text encoder, tokenizer and feature extractor of one of the
    two families: the open-vocabulary family comes without a feature
    extractor, the CLIP family with one. *)
Theorem loaded_pipeline_parts
    (custom_model_path model_name folder_path : string)
    (config_file_path : option string) (image_size : Z)
    (prediction_type vae_file_path : option string) (should_cache : bool)
    (d d' : disk E) (pipe : pipe_of E) (target : string) :
  load_ckpt_or_safetensors_file_and_cache_as_diffusers E custom_model_path
    model_name folder_path config_file_path image_size prediction_type
    vae_file_path should_cache d = (d', Ok (pipe, target)) ->
  applied pipe = []
  /\ requires_safety_checker pipe = false
  /\ (exists checker,
        safety_checker pipe = Some checker
        /\ StableDiffusionSafetyChecker_from_pretrained E
             "CompVis/stable-diffusion-safety-checker" = Ok checker)
  /\ exists a checkpoint,
       assemble E custom_model_path config_file_path None None vae_file_path
       = Ok a
       /\ text_encoder_class (sch_config (asm_schema a)) = Ok (asm_model_type a)
       /\ family_parts E (asm_model_type a) checkpoint pipe.
Proof.
  intros H.
  destruct (load_ok E _ _ _ _ _ _ _ _ _ _ _ _ H) as [a [Ha [Hp _]]].
  destruct (assemble_ok E _ _ _ _ _ _ Ha)
    as (file & checkpoint & sched & unet0 & c1 & vae0 & c2
        & _ & _ & _ & _ & _ & _ & Hclass & Hpipe).
  rewrite Hp in Hpipe.
  destruct (build_pipe_some E _ _ _ _ _ _ Hpipe) as [_ [_ [_ [Happlied _]]]].
  destruct (build_pipe_wiring _ _ _ _ _ _ Hpipe) as [Hreq [Hchecker Hparts]].
  split; [exact Happlied |]. split; [exact Hreq |]. split; [exact Hchecker |].
  exists a, c2. auto.
Qed.

(** The denoiser is built and converted with the factory's config in
    which [upcast_attention] is forced to the detected flag, every other
    key left as the factory gave it, and without extracting EMA
    weights. *)
Theorem unet_config_upcast (c : yaml) (image_size : Z) (upcast_attention : bool)
    (checkpoint checkpoint' : pyval) (custom_model_path : string)
    (unet0 : module E) :
  build_unet E c image_size upcast_attention checkpoint custom_model_path
  = Ok (unet0, checkpoint') ->
  exists base unet_config fresh converted,
    create_unet_diffusers_config E c image_size = Ok base
    /\ dict_get "upcast_attention" unet_config = Some (YBool upcast_attention)
    /\ (forall k, k <> "upcast_attention" ->
                  dict_get k unet_config = dict_get k base)
    /\ UNet2DConditionModel E unet_config = Ok fresh
    /\ convert_ldm_unet_checkpoint E checkpoint unet_config custom_model_path false
       = Ok (converted, checkpoint')
    /\ load_state_dict E fresh converted = Ok unet0.
Proof.
  unfold build_unet. intros H.
  bind_inv H as base Hbase. bind_inv H as fresh Hfresh.
  bind_inv H as [converted c'] Hconverted. bind_inv H as loaded Hloaded.
  inversion H; subst.
  exists base, (dict_set "upcast_attention" (YBool upcast_attention) base),
    fresh, converted.
  split; [exact Hbase |]. split; [apply dict_get_set |].
  split; [intros k Hk; apply dict_get_set_other; exact Hk |]. auto.
Qed.

End Wiring.

Lemma loaded_pipeline_parts_witness :
  exists (d' : disk demo) (pipe : pipe_of demo),
    load_ckpt_or_safetensors_file_and_cache_as_diffusers demo
      "/models/wide.ckpt" "wide" "/cache" None 512 None None false []
    = (d', Ok (pipe, "v_prediction"))
    /\ applied pipe = []
    /\ requires_safety_checker pipe = false.
Proof.
  eexists. eexists. split; [reflexivity |].
  match goal with
  | |- applied ?p = _ /\ _ =>
      destruct (loaded_pipeline_parts demo "/models/wide.ckpt" "wide" "/cache"
                  None 512 None None false [] _ p "v_prediction" eq_refl)
        as [Happlied [Hreq _]]
  end.
  split; [exact Happlied | exact Hreq].
Defined.

Lemma unet_config_upcast_witness :
  exists base unet_config,
    create_unet_diffusers_config demo narrow_document 512 = Ok base
    /\ dict_get "upcast_attention" unet_config = Some (YBool true)
    /\ UNet2DConditionModel demo unet_config
       = Ok (SymModule "UNet2DConditionModel" unet_config []).
Proof.
  destruct (unet_config_upcast demo narrow_document 512 true (PyDict [])
              (PyDict []) "/m.ckpt"
              (SymModule "UNet2DConditionModel"
                 [("sample_size", YInt 64); ("upcast_attention", YBool true)] [])
              eq_refl)
    as (base & unet_config & fresh & converted & Hbase & Hup & _ & _ & _ & _).
  exists base, unet_config. split; [exact Hbase |]. split; [exact Hup |].
  reflexivity.
Defined.

(** ** The entry point beyond the claims *)

Lemma lift_ok {E : Externals} {A : Type} (r : result A) (d d' : disk E) (a : A) :
  lift E r d = (d', Ok a) -> d' = d /\ r = Ok a.
Proof. unfold lift. intros H. inversion H. auto. Qed.

(** Splits a successful step of a writing computation off. *)
Tactic Notation "mbind_inv" hyp(H) "as" ident(d1) simple_intropattern(a) ident(Ha) :=
  apply mbind_ok in H; destruct H as (d1 & a & Ha & H).

(** Splits a successful pure step off. *)
Tactic Notation "lift_inv" hyp(H) "as" simple_intropattern(a) ident(Ha) :=
  let d1 := fresh "d" in
  let Hd := fresh "Hd" in
  apply mbind_ok in H; destruct H as (d1 & a & Ha & H);
  apply lift_ok in Ha; destruct Ha as [Hd Ha]; subst d1.

Section EntryPointMore.

Variable E : Externals.

Lemma table_mem_truthy (k : string) (t : option (dict json)) :
  table_mem k t = true -> dict_truthy t = true.
Proof.
  destruct t as [[| kv t] |]; simpl; try discriminate. reflexivity.
Qed.

Lemma post_load_spec (slicing xformers : bool) (pipe : pipe_of E) :
  applied (post_load E slicing xformers pipe)
  = (applied pipe ++ attention_calls slicing xformers ++ placement_calls)%list
  /\ vae (post_load E slicing xformers pipe) = vae pipe
  /\ unet (post_load E slicing xformers pipe) = unet pipe
  /\ text_encoder (post_load E slicing xformers pipe) = text_encoder pipe
  /\ scheduler (post_load E slicing xformers pipe) = scheduler pipe
  /\ tokenizer (post_load E slicing xformers pipe) = tokenizer pipe
  /\ safety_checker (post_load E slicing xformers pipe) = safety_checker pipe.
Proof.
  unfold post_load, attention_calls, placement_calls, invoke.
  destruct xformers; [| destruct slicing]; simpl;
    rewrite <- ?app_assoc; simpl; rewrite ?app_nil_r; auto 10.
Qed.


(** A name found in the cached table is served from the cache whatever
    the requested type and whatever the other two tables hold, and
    serving it writes nothing. *)
Theorem cached_entry_wins (model_name model_type : string)
    (downloadable_model_dict : dict json)
    (custom_model_dict cached_model_dict : option (dict json))
    (enable_attention_slicing enable_xformers : bool) (d : disk E) :
  table_mem model_name cached_model_dict = true ->
  prepare_pipe E model_name model_type downloadable_model_dict
    custom_model_dict cached_model_dict enable_attention_slicing
    enable_xformers d
  = prepare_pipe E model_name "Installed Models" [] None cached_model_dict
      enable_attention_slicing enable_xformers d
  /\ fst (prepare_pipe E model_name model_type downloadable_model_dict
            custom_model_dict cached_model_dict enable_attention_slicing
            enable_xformers d) = d.
Proof.
  intros Hmem. pose proof (table_mem_truthy _ _ Hmem) as Htruthy.
  unfold prepare_pipe, select_source. rewrite Hmem, Htruthy. simpl.
  split; [reflexivity |].
  unfold mbind, lift, load_installed_model_from_hf_cache.
  destruct (table_getitem cached_model_dict model_name) as [info | e];
    [| reflexivity].
  destruct (json_getitem info "path") as [path | e]; [| reflexivity].
  destruct (pipeline_from_pretrained E d path _) as [p | e]; reflexivity.
Qed.

(** What the entry point does to the pipeline it loaded: one attention
    call at most (slicing only when the fused kernel is not asked for),
    then the padding setup, the move to the accelerator and the cast to
    half precision; the parts of the pipeline are untouched. *)
Theorem prepared_pipeline_calls (model_name model_type : string)
    (downloadable_model_dict : dict json)
    (custom_model_dict cached_model_dict : option (dict json))
    (enable_attention_slicing enable_xformers : bool) (d d' : disk E)
    (pipe : pipe_of E) (pipe_info : json) :
  prepare_pipe E model_name model_type downloadable_model_dict
    custom_model_dict cached_model_dict enable_attention_slicing
    enable_xformers d = (d', Ok (pipe, pipe_info)) ->
  exists loaded,
    select_source E model_name model_type downloadable_model_dict
      custom_model_dict cached_model_dict d = (d', Ok (Some loaded, pipe_info))
    /\ applied pipe
       = (applied loaded
          ++ attention_calls enable_attention_slicing enable_xformers
          ++ placement_calls)%list
    /\ vae pipe = vae loaded
    /\ unet pipe = unet loaded
    /\ text_encoder pipe = text_encoder loaded
    /\ scheduler pipe = scheduler loaded.
Proof.
  unfold prepare_pipe. intros H.
  apply mbind_ok in H. destruct H as (d1 & [loaded info] & Hsel & H).
  simpl in H. destruct loaded as [loaded |]; unfold lift in H; inversion H; subst.
  exists loaded. split; [exact Hsel |].
  destruct (post_load_spec enable_attention_slicing enable_xformers loaded)
    as (Ha & Hv & Hu & Ht & Hs & _).
  auto 6.
Qed.


(** A custom-model entry without keywords is still converted and cached
    before the entry point fails on the missing key: the call raises,
    and the cache has the new pipeline. *)
Theorem custom_model_without_keywords (model_name : string)
    (downloadable_model_dict : dict json) (custom_models : dict json)
    (cached_model_dict : option (dict json))
    (enable_attention_slicing enable_xformers : bool) (d d1 : disk E)
    (custom_model : json) (path : string) (config vae : json)
    (config_file vae_file : option string) (converted : pipe_of E)
    (target : string) :
  table_mem model_name cached_model_dict = false ->
  dict_get model_name custom_models = Some custom_model ->
  json_getitem custom_model "path" = Ok (JStr path) ->
  json_getitem custom_model "config" = Ok config ->
  as_optional_str config = Ok config_file ->
  json_getitem custom_model "vae" = Ok vae ->
  as_optional_str vae = Ok vae_file ->
  json_getitem custom_model "keywords" = Raise (Exn "KeyError" "keywords") ->
  load_custom_model_from_local_file E path model_name config_file vae_file d
  = (d1, Ok (converted, target)) ->
  prepare_pipe E model_name "Custom Models" downloadable_model_dict
    (Some custom_models) cached_model_dict enable_attention_slicing
    enable_xformers d = (d1, Raise (Exn "KeyError" "keywords"))
  /\ exists folder,
       get_huggingface_cache_path E = Ok folder
       /\ dict_get (path_join folder model_name) d1 = Some converted.
Proof.
  intros Hcached Hentry Hpath Hconfig Hconfig' Hvae Hvae' Hkeywords Hload.
  split.
  - assert (Htruthy : dict_truthy (Some custom_models) = true).
    { destruct custom_models; [discriminate Hentry | reflexivity]. }
    unfold prepare_pipe, select_source. rewrite Hcached, Htruthy. simpl.
    rewrite andb_false_r.
    unfold mbind, lift. rewrite Hentry, Hpath, Hconfig, Hvae. simpl.
    rewrite Hconfig', Hvae', Hload, Hkeywords. reflexivity.
  - unfold load_custom_model_from_local_file in Hload.
    lift_inv Hload as folder Hfolder.
    destruct (load_ok E _ _ _ _ _ _ _ _ _ _ _ _ Hload) as [a [_ [_ [_ Hd]]]].
    exists folder. split; [exact Hfolder |]. subst d1. apply dict_get_set.
Qed.

(** A downloadable entry whose type is neither [diffusers] nor
    [hf-file] loads nothing: the entry point builds the metadata and
    then fails on the unbound pipeline, with nothing written. *)
Theorem downloadable_unknown_type (model_name : string)
    (downloadable_model_dict : dict json)
    (custom_model_dict cached_model_dict : option (dict json))
    (enable_attention_slicing enable_xformers : bool) (d : disk E)
    (model_choice type keyword prediction : json) :
  table_mem model_name cached_model_dict = false ->
  dict_get model_name downloadable_model_dict = Some model_choice ->
  json_getitem model_choice "type" = Ok type ->
  json_eq_str type "diffusers" = false ->
  json_eq_str type "hf-file" = false ->
  json_getitem model_choice "keyword" = Ok keyword ->
  json_getitem model_choice "prediction" = Ok prediction ->
  prepare_pipe E model_name "Downloadable Models" downloadable_model_dict
    custom_model_dict cached_model_dict enable_attention_slicing
    enable_xformers d = (d, Raise unbound_pipe).
Proof.
  intros Hcached Hentry Htype Hd Hh Hkeyword Hprediction.
  unfold prepare_pipe, select_source. rewrite Hcached. simpl.
  rewrite andb_false_r.
  unfold mbind, lift. simpl. rewrite Hentry, Htype, Hd, Hh.
  rewrite Hkeyword, Hprediction. reflexivity.
Qed.

End EntryPointMore.

Lemma cached_entry_wins_witness :
  table_mem "narrow" (Some [("narrow", JDict [("path", JStr "/cache/narrow")])])
  = true
  /\ fst (prepare_pipe demo "narrow" "Downloadable Models"
            demo_downloadable_models (Some demo_custom_models)
            (Some [("narrow", JDict [("path", JStr "/cache/narrow")])])
            false false [])
     = [].
Proof.
  split; [reflexivity |].
  apply (cached_entry_wins demo "narrow" "Downloadable Models"
           demo_downloadable_models (Some demo_custom_models)
           (Some [("narrow", JDict [("path", JStr "/cache/narrow")])])
           false false []).
  reflexivity.
Defined.

Lemma prepared_pipeline_calls_witness :
  exists (d' : disk demo) (pipe : pipe_of demo) (pipe_info : json),
    prepare_pipe demo "narrow" "Custom Models" [] (Some demo_custom_models)
      None true false []
    = (d', Ok (pipe, pipe_info))
    /\ exists loaded : pipe_of demo,
         applied pipe
         = (applied loaded ++ attention_calls true false ++ placement_calls)%list.
Proof.
  eexists. eexists. eexists. split; [reflexivity |].
  match goal with
  | |- exists loaded : _, applied ?p = _ =>
      destruct (prepared_pipeline_calls demo "narrow" "Custom Models" []
                  (Some demo_custom_models) None true false [] _ p _ eq_refl)
        as [loaded [_ [Happlied _]]]
  end.
  exists loaded. exact Happlied.
Defined.


Lemma custom_model_without_keywords_witness :
  exists (d1 : disk demo) (converted : pipe_of demo),
    prepare_pipe demo "bare" "Custom Models" [] (Some demo_custom_models)
      None false false []
    = (d1, Raise (Exn "KeyError" "keywords"))
    /\ dict_get "/cache/bare" d1 = Some converted.
Proof.
  eexists. eexists.
  match goal with
  | |- _ = (?d1, _) /\ dict_get _ _ = Some ?c =>
      destruct (custom_model_without_keywords demo "bare" []
                  demo_custom_models None false false [] d1
                  (JDict [("path", JStr "/models/narrow.ckpt");
                          ("config", JNull); ("vae", JNull)])
                  "/models/narrow.ckpt" JNull JNull None None c "epsilon"
                  eq_refl eq_refl eq_refl eq_refl eq_refl eq_refl eq_refl
                  eq_refl eq_refl)
        as [Hrun [folder [Hfolder Hget]]]
  end.
  inversion Hfolder; subst folder.
  split; [exact Hrun | exact Hget].
Defined.

Lemma downloadable_unknown_type_witness :
  prepare_pipe demo "odd" "Downloadable Models" demo_downloadable_models
    None None true true []
  = ([], Raise unbound_pipe).
Proof.
  apply (downloadable_unknown_type demo "odd" demo_downloadable_models None
           None true true []
           (JDict [("type", JStr "onnx"); ("keyword", JStr "kw");
                   ("prediction", JStr "epsilon")])
           (JStr "onnx") (JStr "kw") (JStr "epsilon"));
    reflexivity.
Defined.

(** ** Swapping the codec of a loaded pipeline *)

Section SwapVaeFacts.

Variable E : Externals.
Variable module_attr : module E -> string -> result yaml.

Lemma read_attrs_keys (m : module E) (keys : list string) (config : dict yaml) :
  read_attrs E module_attr m keys = Ok config ->
  map fst config = keys
  /\ forall k v, In (k, v) config -> module_attr m k = Ok v.
Proof.
  revert config. induction keys as [| k keys IH]; intros config H; simpl in H.
  - inversion H; subst. split; [reflexivity | intros k v []].
  - bind_inv H as v Hv. bind_inv H as others Hothers.
    inversion H; subst config. destruct (IH _ Hothers) as [Hkeys Hvals].
    split; [simpl; rewrite Hkeys; reflexivity |].
    intros k0 v0 [Heq | Hin]; [inversion Heq; subst; exact Hv | auto].
Qed.

Lemma swap_ok (pipe pipe' : pipe_of E) (vae_file_path : string) :
  load_vae_file_to_current_pipe E module_attr pipe vae_file_path = Ok pipe' ->
  exists vae_config vae_ckpt state items converted fresh loaded,
    current_vae_config E module_attr pipe = Ok vae_config
    /\ torch_load E vae_file_path = Ok vae_ckpt
    /\ py_getitem vae_ckpt "state_dict" = Ok state
    /\ py_items state = Ok items
    /\ convert_ldm_vae_checkpoint_from_file E (drop_loss_and_ema items) vae_config
       = Ok converted
    /\ AutoencoderKL E vae_config = Ok fresh
    /\ load_state_dict E fresh converted = Ok loaded
    /\ pipe' = invoke (ToDtype "float16")
                 (invoke (ToDevice "cuda")
                    (invoke (AssignPaddingMode "setup") (set_vae loaded pipe))).
Proof.
  unfold load_vae_file_to_current_pipe. intros H.
  bind_inv H as vae_config Hconfig. bind_inv H as vae_ckpt Hckpt.
  bind_inv H as state Hstate. bind_inv H as items Hitems.
  bind_inv H as converted Hconverted. bind_inv H as fresh Hfresh.
  bind_inv H as loaded Hloaded. inversion H; subst pipe'.
  exists vae_config, vae_ckpt, state, items, converted, fresh, loaded.
  auto 10.
Qed.

(** Swapping the codec replaces the codec and nothing else: the new one
    is built from the eight arguments read off the old one and holds the
    state converted from the file; every other part of the pipeline is
    the same, and the pipeline is set up, moved and cast again. *)
Theorem swap_replaces_only_codec (pipe pipe' : pipe_of E)
    (vae_file_path : string) :
  load_vae_file_to_current_pipe E module_attr pipe vae_file_path = Ok pipe' ->
  text_encoder pipe' = text_encoder pipe
  /\ unet pipe' = unet pipe
  /\ tokenizer pipe' = tokenizer pipe
  /\ scheduler pipe' = scheduler pipe
  /\ feature_extractor pipe' = feature_extractor pipe
  /\ safety_checker pipe' = safety_checker pipe
  /\ requires_safety_checker pipe' = requires_safety_checker pipe
  /\ applied pipe' = (applied pipe ++ placement_calls)%list
  /\ exists vae_config fresh converted,
       map fst vae_config = vae_config_keys
       /\ (forall k v, In (k, v) vae_config -> module_attr (vae pipe) k = Ok v)
       /\ AutoencoderKL E vae_config = Ok fresh
       /\ load_state_dict E fresh converted = Ok (vae pipe').
Proof.
  intros H.
  destruct (swap_ok _ _ _ H)
    as (vae_config & vae_ckpt & state & items & converted & fresh & loaded
        & Hconfig & _ & _ & _ & _ & Hfresh & Hloaded & ->).
  unfold invoke, set_vae, placement_calls. simpl.
  repeat (split; [reflexivity |]).
  split; [rewrite <- !app_assoc; reflexivity |].
  destruct (read_attrs_keys _ _ _ Hconfig) as [Hkeys Hvals].
  exists vae_config, fresh, converted. auto.
Qed.

(** Loading with a separate codec file and swapping the same file in
    after a load without one end with the same codec, provided a codec
    reports the arguments the loader's factory built it with. *)
Theorem swap_agrees_with_loader
    (custom_model_path model_name model_name' folder_path folder_path' : string)
    (config_file_path : option string) (image_size image_size' : Z)
    (prediction_type prediction_type' : option string) (vae_file_path : string)
    (should_cache should_cache' : bool) (d d1 d' d2 : disk E)
    (pipe1 pipe2 pipe3 : pipe_of E) (target1 target2 : string) :
  (forall c size config fresh state m,
     create_vae_diffusers_config E c size = Ok config ->
     AutoencoderKL E config = Ok fresh ->
     load_state_dict E fresh state = Ok m ->
     read_attrs E module_attr m vae_config_keys = Ok config) ->
  vae_file_path <> "" ->
  load_ckpt_or_safetensors_file_and_cache_as_diffusers E custom_model_path
    model_name folder_path config_file_path image_size prediction_type
    (Some vae_file_path) should_cache d = (d1, Ok (pipe1, target1)) ->
  load_ckpt_or_safetensors_file_and_cache_as_diffusers E custom_model_path
    model_name' folder_path' config_file_path image_size' prediction_type'
    None should_cache' d' = (d2, Ok (pipe2, target2)) ->
  load_vae_file_to_current_pipe E module_attr pipe2 vae_file_path = Ok pipe3 ->
  vae pipe3 = vae pipe1.
Proof.
  intros Hattr Hpath H1 H2 H3.
  destruct (load_ok E _ _ _ _ _ _ _ _ _ _ _ _ H1) as [a1 [Ha1 [Hp1 _]]].
  destruct (load_ok E _ _ _ _ _ _ _ _ _ _ _ _ H2) as [a2 [Ha2 [Hp2 _]]].
  destruct (assemble_ok E _ _ _ _ _ _ Ha1)
    as (file1 & ck1 & sched1 & unet1 & ck1' & vae1 & ck1''
        & Hfile1 & Hunwrap1 & Hschema1 & _ & _ & Hvae1 & _ & Hpipe1).
  destruct (assemble_ok E _ _ _ _ _ _ Ha2)
    as (file2 & ck2 & sched2 & unet2 & ck2' & vae2 & ck2''
        & Hfile2 & Hunwrap2 & Hschema2 & _ & _ & Hvae2 & _ & Hpipe2).
  rewrite Hfile1 in Hfile2. inversion Hfile2; subst file2.
  rewrite Hunwrap1 in Hunwrap2. inversion Hunwrap2 as [[Hgs Hck]].
  rewrite <- Hgs, <- Hck in Hschema2. rewrite Hschema1 in Hschema2.
  inversion Hschema2 as [Hschema]. rewrite <- Hschema in Hvae2.
  rewrite Hp1 in Hpipe1. rewrite Hp2 in Hpipe2.
  destruct (build_pipe_some E _ _ _ _ _ _ Hpipe1) as [Hv1 _].
  destruct (build_pipe_some E _ _ _ _ _ _ Hpipe2) as [Hv2 _].
  destruct (build_vae_ok E _ _ _ _ _ _ Hvae1)
    as (config1 & converted1 & fresh1 & Hconfig1 & Hconvert1 & Hfresh1 & Hstate1).
  destruct (build_vae_ok E _ _ _ _ _ _ Hvae2)
    as (config2 & converted2 & fresh2 & Hconfig2 & _ & Hfresh2 & Hstate2).
  rewrite Hconfig1 in Hconfig2. inversion Hconfig2; subst config2.
  assert (Htruthy : str_truthy (Some vae_file_path) = Some vae_file_path).
  { simpl. destruct (String.eqb_spec vae_file_path "");
      [contradiction | reflexivity]. }
  destruct (convert_vae_from_file E _ _ _ _ _ Htruthy Hconvert1)
    as [_ (vae_ckpt & state & items & Hload & Hget & Hitems & Hconv)].
  destruct (swap_ok _ _ _ H3)
    as (config3 & vae_ckpt3 & state3 & items3 & converted3 & fresh3 & loaded3
        & Hconfig3 & Hload3 & Hget3 & Hitems3 & Hconv3 & Hfresh3 & Hstate3 & ->).
  unfold current_vae_config in Hconfig3.
  rewrite Hv2 in Hconfig3.
  rewrite (Hattr _ _ _ _ _ _ Hconfig1 Hfresh2 Hstate2) in Hconfig3.
  inversion Hconfig3; subst config3.
  rewrite Hload in Hload3. inversion Hload3; subst vae_ckpt3.
  rewrite Hget in Hget3. inversion Hget3; subst state3.
  rewrite Hitems in Hitems3. inversion Hitems3; subst items3.
  rewrite Hconv in Hconv3. inversion Hconv3; subst converted3.
  rewrite Hfresh1 in Hfresh3. inversion Hfresh3; subst fresh3.
  rewrite Hstate1 in Hstate3. inversion Hstate3; subst loaded3.
  simpl. symmetry. exact Hv1.
Qed.

(** A codec file that is a bare tensor dictionary, without the
    [state_dict] wrapper, is rejected with a [KeyError] by the loader and
    by the swap alike. *)
Theorem codec_file_without_state_dict (vae_file_path : string)
    (top : dict pyval) :
  torch_load E vae_file_path = Ok (PyDict top) ->
  dict_get "state_dict" top = None ->
  (vae_file_path <> "" ->
   forall vae_config checkpoint,
     convert_vae E (Some vae_file_path) vae_config checkpoint
     = Raise (Exn "KeyError" "state_dict"))
  /\ (forall pipe vae_config,
        current_vae_config E module_attr pipe = Ok vae_config ->
        load_vae_file_to_current_pipe E module_attr pipe vae_file_path
        = Raise (Exn "KeyError" "state_dict")).
Proof.
  intros Hload Hmissing. split.
  - intros Hpath vae_config checkpoint. unfold convert_vae. simpl.
    destruct (String.eqb_spec vae_file_path ""); [contradiction |].
    rewrite Hload. simpl. rewrite Hmissing. reflexivity.
  - intros pipe vae_config Hconfig. unfold load_vae_file_to_current_pipe.
    rewrite Hconfig. simpl. rewrite Hload. simpl. rewrite Hmissing.
    reflexivity.
Qed.

End SwapVaeFacts.

Lemma swap_replaces_only_codec_witness :
  exists (d' : disk demo_codec) (pipe pipe' : pipe_of demo_codec),
    load_ckpt_or_safetensors_file_and_cache_as_diffusers demo_codec
      "/models/narrow.ckpt" "narrow" "/cache" None 512 None None false []
    = (d', Ok (pipe, "epsilon"))
    /\ load_vae_file_to_current_pipe demo_codec sym_attr pipe "/models/vae.pt"
       = Ok pipe'
    /\ unet pipe' = unet pipe
    /\ applied pipe' = (applied pipe ++ placement_calls)%list.
Proof.
  eexists. eexists. eexists.
  split; [reflexivity |]. split; [reflexivity |].
  match goal with
  | |- unet ?q = unet ?p /\ _ =>
      destruct (swap_replaces_only_codec demo_codec sym_attr p q
                  "/models/vae.pt" eq_refl)
        as (_ & Hunet & _ & _ & _ & _ & _ & Happlied & _)
  end.
  split; [exact Hunet | exact Happlied].
Defined.

Lemma swap_agrees_with_loader_witness :
  exists (d1 d2 : disk demo_codec) (pipe1 pipe2 pipe3 : pipe_of demo_codec),
    load_ckpt_or_safetensors_file_and_cache_as_diffusers demo_codec
      "/models/narrow.ckpt" "narrow" "/cache" None 512 None
      (Some "/models/vae.pt") true []
    = (d1, Ok (pipe1, "epsilon"))
    /\ load_ckpt_or_safetensors_file_and_cache_as_diffusers demo_codec
         "/models/narrow.ckpt" "plain" "/tmp" None 768 (Some "sample")
         None false []
       = (d2, Ok (pipe2, "epsilon"))
    /\ load_vae_file_to_current_pipe demo_codec sym_attr pipe2 "/models/vae.pt"
       = Ok pipe3
    /\ vae pipe3 = vae pipe1.
Proof.
  eexists. eexists. eexists. eexists. eexists.
  split; [reflexivity |]. split; [reflexivity |]. split; [reflexivity |].
  eapply (swap_agrees_with_loader demo_codec sym_attr
            "/models/narrow.ckpt" "narrow" "plain" "/cache" "/tmp" None
            512 768 None (Some "sample") "/models/vae.pt" true false
            [] _ [] _ _ _ _ "epsilon" "epsilon").
  - intros c size config fresh state m Hc Hf Hs.
    simpl in Hc, Hf, Hs.
    inversion Hc; subst config. inversion Hf; subst fresh.
    inversion Hs; subst m. reflexivity.
  - discriminate.
  - reflexivity.
  - reflexivity.
  - reflexivity.
Defined.

Lemma codec_file_without_state_dict_witness :
  convert_vae
    (mem_externals
       [("/models/bare_vae.pt",
         PyDict [("decoder.conv_in.weight", PyTensor (Tensor [4] [2]))])] [] [])
    (Some "/models/bare_vae.pt") [] (PyDict [])
  = Raise (Exn "KeyError" "state_dict").
Proof.
  destruct (codec_file_without_state_dict
              (mem_externals
                 [("/models/bare_vae.pt",
                   PyDict [("decoder.conv_in.weight", PyTensor (Tensor [4] [2]))])]
                 [] [])
              sym_attr "/models/bare_vae.pt"
              [("decoder.conv_in.weight", PyTensor (Tensor [4] [2]))]
              eq_refl eq_refl) as [Hloader _].
  apply Hloader. discriminate.
Defined.

(** ** The downloadable sources *)

Section Sources.

Variable E : Externals.

(** A checkpoint fetched from the hub is converted and cached under the
    model's name in the cache folder; the config and codec files are
    fetched only when the table names them (an absent or empty entry
    leaves detection, respectively the primary checkpoint's codec, in
    charge). *)
Theorem downloaded_model_cached (repo_id : json) (model_name : string)
    (filename config_file vae_file : json) (d d' : disk E) (pipe : pipe_of E) :
  download_and_load_non_diffusers_model E repo_id model_name filename
    config_file vae_file d = (d', Ok pipe) ->
  exists folder checkpoint_path config vae target,
    get_huggingface_cache_path E = Ok folder
    /\ hf_hub_download E repo_id filename = Ok checkpoint_path
    /\ (if json_truthy config_file
        then exists p, hf_hub_download E repo_id config_file = Ok p
                       /\ config = Some p
        else config = None)
    /\ (if json_truthy vae_file
        then exists p, hf_hub_download E repo_id vae_file = Ok p /\ vae = Some p
        else vae = None)
    /\ load_ckpt_or_safetensors_file_and_cache_as_diffusers E checkpoint_path
         model_name folder config 512 None vae true d = (d', Ok (pipe, target))
    /\ dict_get (path_join folder model_name) d' = Some pipe.
Proof.
  unfold download_and_load_non_diffusers_model. intros H.
  lift_inv H as folder Hfolder. lift_inv H as checkpoint_path Hpath.
  lift_inv H as config Hconfig. lift_inv H as vae0 Hvae.
  mbind_inv H as d2 [loaded target] Hload.
  apply lift_ok in H. destruct H as [-> H]. inversion H; subst pipe. simpl in *.
  exists folder, checkpoint_path, config, vae0, target.
  split; [exact Hfolder |]. split; [exact Hpath |].
  split.
  { destruct (json_truthy config_file).
    - bind_inv Hconfig as p Hp. inversion Hconfig. exists p. auto.
    - inversion Hconfig. reflexivity. }
  split.
  { destruct (json_truthy vae_file).
    - bind_inv Hvae as p Hp. inversion Hvae. exists p. auto.
    - inversion Hvae. reflexivity. }
  split; [exact Hload |].
  destruct (load_ok E _ _ _ _ _ _ _ _ _ _ _ _ Hload) as [a [_ [_ [_ Hd]]]].
  subst d2. apply dict_get_set.
Qed.


(** The metadata returned for a downloadable model is the table's own:
    its keyword and its declared prediction field, not the prediction
    target the conversion derived. *)
Theorem downloadable_metadata_from_table (model_name : string)
    (downloadable_model_dict : dict json)
    (custom_model_dict cached_model_dict : option (dict json))
    (enable_attention_slicing enable_xformers : bool) (d d' : disk E)
    (pipe : pipe_of E) (pipe_info : json) :
  table_mem model_name cached_model_dict = false ->
  prepare_pipe E model_name "Downloadable Models" downloadable_model_dict
    custom_model_dict cached_model_dict enable_attention_slicing
    enable_xformers d = (d', Ok (pipe, pipe_info)) ->
  exists model_choice keyword prediction,
    dict_get model_name downloadable_model_dict = Some model_choice
    /\ json_getitem model_choice "keyword" = Ok keyword
    /\ json_getitem model_choice "prediction" = Ok prediction
    /\ pipe_info = JDict [("keyword", keyword); ("prediction_type", prediction)].
Proof.
  intros Hcached H. unfold prepare_pipe in H.
  mbind_inv H as d1 [loaded info] Hsel.
  unfold select_source in Hsel. rewrite Hcached in Hsel. simpl in Hsel.
  rewrite andb_false_r in Hsel.
  lift_inv Hsel as model_choice Hentry. lift_inv Hsel as type Htype.
  mbind_inv Hsel as d2 fetched Hfetched.
  lift_inv Hsel as keyword Hkeyword. lift_inv Hsel as prediction Hprediction.
  apply lift_ok in Hsel. destruct Hsel as [-> Hsel].
  inversion Hsel; subst loaded info. simpl in H.
  destruct fetched as [fetched |]; apply lift_ok in H; destruct H as [-> H];
    inversion H; subst.
  exists model_choice, keyword, prediction.
  split; [| auto].
  unfold table_getitem in Hentry.
  destruct (dict_get model_name downloadable_model_dict) as [v |];
    inversion Hentry; reflexivity.
Qed.

End Sources.

Lemma downloaded_model_cached_witness :
  exists (d' : disk demo) (pipe : pipe_of demo),
    download_and_load_non_diffusers_model demo (JStr "/models") "narrow"
      (JStr "narrow.ckpt") JNull (JStr "") []
    = (d', Ok pipe)
    /\ dict_get "/cache/narrow" d' = Some pipe.
Proof.
  eexists. eexists. split; [reflexivity |].
  match goal with
  | |- dict_get _ ?d1 = Some ?p =>
      destruct (downloaded_model_cached demo (JStr "/models") "narrow"
                  (JStr "narrow.ckpt") JNull (JStr "") [] d1 p eq_refl)
        as (folder & path & config & vae0 & target & Hfolder & _ & _ & _ & _ & Hget)
  end.
  inversion Hfolder; subst folder. exact Hget.
Defined.


Lemma downloadable_metadata_from_table_witness :
  exists (d' : disk demo) (pipe : pipe_of demo) (pipe_info : json),
    prepare_pipe demo "narrow" "Downloadable Models"
      [("narrow",
        JDict [("type", JStr "hf-file"); ("repo_id", JStr "/models");
               ("filename", JStr "narrow.ckpt"); ("config_file", JNull);
               ("vae", JStr ""); ("keyword", JStr "kw");
               ("prediction", JStr "v_prediction")])]
      None None false false []
    = (d', Ok (pipe, pipe_info))
    /\ sched_prediction_type (scheduler pipe) = "epsilon"
    /\ exists keyword prediction,
         pipe_info = JDict [("keyword", keyword); ("prediction_type", prediction)].
Proof.
  eexists. eexists. eexists. split; [reflexivity |].
  split; [reflexivity |].
  destruct (downloadable_metadata_from_table demo "narrow"
              [("narrow",
                JDict [("type", JStr "hf-file"); ("repo_id", JStr "/models");
                       ("filename", JStr "narrow.ckpt"); ("config_file", JNull);
                       ("vae", JStr ""); ("keyword", JStr "kw");
                       ("prediction", JStr "v_prediction")])]
              None None false false [] _ _ _ eq_refl eq_refl)
    as (choice & keyword & prediction & _ & _ & _ & Hinfo).
  exists keyword, prediction. exact Hinfo.
Defined.

(** ** Container checkpoints and the release fingerprints *)

(** A tensor container carries no training metadata, so the two
    fingerprints keyed on [global_step] cannot apply to it: a wide
    container checkpoint without an explicit config always resolves to
    the wide document, velocity prediction and 768, with
    [upcast_attention] off. *)
Theorem container_never_fingerprinted (E : Externals)
    (custom_model_path : string) (f : list (string * tensor)) (t : tensor) :
  shipped_configs E ->
  snd (splitext custom_model_path) = ".safetensors" ->
  safe_open E custom_model_path = Ok f ->
  NoDup (map fst f) ->
  (forall x, ~ In ("global_step", x) f) ->
  (forall x, ~ In ("state_dict", x) f) ->
  In (key_name, t) f ->
  last_dim (shape t) = Ok 1024 ->
  exists file checkpoint s,
    read_checkpoint E custom_model_path = Ok file
    /\ unwrap_checkpoint file = Ok (None, checkpoint)
    /\ resolve_schema E None checkpoint None None None = Ok s
    /\ sch_config_file s = wide_config_file
    /\ sch_prediction_type s = "v_prediction"
    /\ sch_image_size s = 768
    /\ sch_upcast_attention s = false.
Proof.
  intros [[cw [Hcw Hvw]] _] Hext Hopen Hnd Hstep Hstate Hkey Hdim.
  set (d := fold_left store_tensor f []).
  assert (Habsent : forall k, (forall x, ~ In (k, x) f) -> dict_get k d = None).
  { intros k Hk. destruct (dict_get k d) as [v |] eqn:Hget; [| reflexivity].
    destruct (fold_step_origin _ _ _ _ Hget) as [[x [_ Hin]] | Hnil].
    - contradiction (Hk x).
    - discriminate Hnil. }
  assert (Hwide : trailing_dim d 1024).
  { exists t. split; [apply fold_step_present; assumption | exact Hdim]. }
  exists (PyDict d), (PyDict d).
  eexists. split.
  { unfold read_checkpoint.
    destruct (splitext custom_model_path) as [root ext]. simpl in Hext.
    subst ext. simpl. rewrite Hopen. reflexivity. }
  split.
  { unfold unwrap_checkpoint, py_contains, dict_mem.
    rewrite (Habsent _ Hstep), (Habsent _ Hstate). reflexivity. }
  split.
  { unfold resolve_schema. rewrite (detect_wide E None d Hwide). simpl.
    rewrite Hcw. simpl.
    pose proof (regime_of_v E cw None Hvw) as Hregime. simpl in Hregime.
    rewrite Hregime. simpl. reflexivity. }
  simpl. auto.
Qed.

Lemma container_never_fingerprinted_witness :
  exists s,
    resolve_schema
      (mem_externals [] [("/m/wide.safetensors", demo_container)]
         shipped_documents)
      None
      (PyDict (fold_left store_tensor demo_container []))
      None None None = Ok s
    /\ sch_prediction_type s = "v_prediction"
    /\ sch_image_size s = 768.
Proof.
  destruct (container_never_fingerprinted
              (mem_externals [] [("/m/wide.safetensors", demo_container)]
                 shipped_documents)
              "/m/wide.safetensors" demo_container wide_tensor)
    as (file & checkpoint & s & Hread & Hunwrap & Hs & _ & Ht & Hsize & _).
  - split; eexists; split; reflexivity.
  - reflexivity.
  - reflexivity.
  - repeat constructor; simpl; intuition discriminate.
  - intros x [H | [H | []]]; discriminate H.
  - intros x [H | [H | []]]; discriminate H.
  - left. reflexivity.
  - reflexivity.
  - simpl in Hread. inversion Hread; subst file.
    simpl in Hunwrap. inversion Hunwrap; subst checkpoint.
    exists s. auto.
Defined.
